(** * The chain server of RetrievalAugmentedGeneration/common/server.py

    A shallow embedding of the FastAPI facade: the request data types
    ([Message], [Prompt], [DocumentSearch]), the startup discovery
    ([import_example]) and the three endpoints ([upload_document],
    [generate_answer], [document_search]).

    Python values are modelled as the code has them: [str] as [string],
    [int] as [Z], [float] as binary64 [float], [None]-able fields as
    [option], lists as [list], the dict built by [generate_answer] as an
    association list in insertion order.  Code that raises returns a
    [Result]; code that touches the outside (the handler class, the file
    system, the logger) runs in the monad [M] further down. *)

From Stdlib Require Import String Ascii Strings.Byte List Sorted ZArith Bool Arith Lia PrimFloat.
Import ListNotations.
Open Scope string_scope.
Open Scope list_scope.

Set Implicit Arguments.

(** ** Exceptions and results *)

(** A raised exception that derives from Python's [Exception]: the names of
    its classes (most derived first, up to but excluding [Exception]) and
    what [str(e)] gives.  System-exiting [BaseException]s (KeyboardInterrupt,
    SystemExit) are process signals, not results of a request, and are not
    modelled. *)
Record Exception := mkException {
  exc_classes : list string;
  exc_str : string
}.

Definition isinstance (e : Exception) (cls : string) : bool :=
  existsb (String.eqb cls) (exc_classes e).

Definition ValueError (msg : string) : Exception :=
  mkException ["ValueError"] msg.
Definition RuntimeError (msg : string) : Exception :=
  mkException ["RuntimeError"] msg.
Definition NotImplementedError (msg : string) : Exception :=
  mkException ["NotImplementedError"; "RuntimeError"] msg.
Definition AttributeError (msg : string) : Exception :=
  mkException ["AttributeError"] msg.
Definition NameError (msg : string) : Exception :=
  mkException ["NameError"] msg.

Inductive Result (A : Type) : Type :=
| Ok (a : A)
| Raise (e : Exception).
Arguments Ok {A} a.
Arguments Raise {A} e.

(** ** Strings *)

(** [str.lower] on the bytes of a string: 'A'..'Z' go to 'a'..'z', every
    other byte stays.  On ASCII strings this is Python's [lower].  A
    character outside ASCII never lowers to ASCII characters alone, except
    U+212A, which lowers to 'k', a letter of none of the three roles: a
    value holding one is rejected by Python's [validate_role] and by this
    one alike. *)
Definition lower_ascii (c : ascii) : ascii :=
  let n := nat_of_ascii c in
  if ((65 <=? n)%nat && (n <=? 90)%nat)%bool then ascii_of_nat (n + 32) else c.

Fixpoint lower (s : string) : string :=
  match s with
  | EmptyString => EmptyString
  | String c s' => String (lower_ascii c) (lower s')
  end.

Definition str_in (x : string) (l : list string) : bool :=
  existsb (String.eqb x) l.

(** ** class Message *)

Record Message := mkMessage {
  role : string;
  content : string
}.

Definition valid_roles : list string := ["user"; "assistant"; "system"].

(** [Message.validate_role]: the validator of the field [role]. *)
Definition validate_role (value : string) : Result string :=
  if negb (str_in (lower value) valid_roles)
  then Raise (ValueError "Role must be one of 'user', 'assistant', or 'system'")
  else Ok (lower value).

(** What constructing a pydantic model gives: the object, or the validation
    error with the errors its validators raised. *)
Inductive Validated (A : Type) : Type :=
| Valid (a : A)
| ValidationError (errors : list Exception).
Arguments Valid {A} a.
Arguments ValidationError {A} errors.

(** What [Message(role=..., content=...)] does once [validate_role] is
    registered as the validator of [role]: the validator's result is what
    the field stores. *)
Definition Message_validated (role_in content_in : string) : Validated Message :=
  match validate_role role_in with
  | Ok r => Valid (mkMessage r content_in)
  | Raise e => ValidationError [e]
  end.

(** The names the module has bound when the statement [class Message]
    runs: those of the imports of lines 17 to 31 (from pydantic, line 29,
    [BaseModel] and [Field] only) and of the assignments of lines 35 to 53. *)
Definition server_globals : list string :=
  [ "base64"; "os"; "shutil"; "logging"; "Path"; "Any"; "Dict"; "List";
    "importlib"; "getmembers"; "isclass";
    "FastAPI"; "File"; "UploadFile"; "Request";
    "JSONResponse"; "StreamingResponse"; "CORSMiddleware";
    "BaseModel"; "Field";
    "MilvusException"; "MilvusUnavailableException";
    "utils"; "tracing";
    "logger"; "app"; "origins"; "EXAMPLE_DIR" ].

(** Looking a name up at module level; the builtins, where the lookup ends,
    hold none of the names asked for here. *)
Definition name_lookup (name : string) : Result unit :=
  if str_in name server_globals then Ok tt
  else Raise (NameError ("name '" ++ name ++ "' is not defined")).

(** The statement [class Message(BaseModel)]: the base class and the two
    [Field] calls are evaluated, then the decorator expression
    [validator('role')] of line 60, and only then is the class made. *)
Definition Message_class : Result (string -> string -> Validated Message) :=
  match name_lookup "BaseModel" with
  | Raise e => Raise e
  | Ok _ =>
      match name_lookup "Field" with
      | Raise e => Raise e
      | Ok _ =>
          match name_lookup "validator" with
          | Raise e => Raise e
          | Ok _ => Ok Message_validated
          end
      end
  end.

(** [Message(role=..., content=...)], in the module as it is written. *)
Definition Message_new (role_in content_in : string) : Result (Validated Message) :=
  match Message_class with
  | Ok init => Ok (init role_in content_in)
  | Raise e => Raise e
  end.

(** ** generate_answer: query and history *)

Definition is_user (m : Message) : bool := (role m =? "user")%string.

(** [next((message.content for message in reversed(chat_history)
          if message.role == 'user'), None)] *)
Definition last_user_message (chat_history : list Message) : option string :=
  option_map content (find is_user (rev chat_history)).

(** [del l[i]] *)
Definition del_at {A} (i : nat) (l : list A) : list A :=
  firstn i l ++ skipn (S i) l.

(** The loop [for i in reversed(range(n)): if chat_history[i].role == 'user':
    del chat_history[i]; break], with [n] the number of indices still to
    visit: it looks at index [n-1], then [n-2], down to 0. *)
Fixpoint del_last_user_from (n : nat) (chat_history : list Message) : list Message :=
  match n with
  | O => chat_history
  | S i =>
      match nth_error chat_history i with
      | Some m => if is_user m then del_at i chat_history
                  else del_last_user_from i chat_history
      | None => del_last_user_from i chat_history
      end
  end.

Definition remove_last_user (chat_history : list Message) : list Message :=
  del_last_user_from (length chat_history) chat_history.

(** [chat_history[-1]], when there is one. *)
Definition last_message (chat_history : list Message) : option Message :=
  hd_error (rev chat_history).

(** The last two messages both have the role "user". *)
Definition ends_with_two_users (chat_history : list Message) : bool :=
  match rev chat_history with
  | a :: b :: _ => is_user a && is_user b
  | _ => false
  end.

(** ** class Prompt *)

Record Prompt := mkPrompt {
  messages : list Message;
  use_knowledge_base : bool;
  temperature : float;
  top_p : float;
  max_tokens : Z;
  seed : Z;
  bad : option (list string);
  stop : option (list string);
  stream : bool
}.

(** The fields of a request body: [messages] and [use_knowledge_base] are
    required ([Field(...)]), every other key may be left out. *)
Record PromptBody := mkPromptBody {
  body_messages : list Message;
  body_use_knowledge_base : bool;
  body_temperature : option float;
  body_top_p : option float;
  body_max_tokens : option Z;
  body_seed : option Z;
  body_bad : option (list string);
  body_stop : option (list string);
  body_stream : option bool
}.

Definition Field {A} (default : A) (given : option A) : A :=
  match given with
  | Some v => v
  | None => default
  end.

(** The float literals [0.2] and [0.7] of the source, as binary64. *)
Definition float_0_2 : float := 0x1.999999999999ap-3%float.
Definition float_0_7 : float := 0x1.6666666666666p-1%float.

(** Constructing a [Prompt] from a body: a key left out takes the default of its [Field]; for
    [bad] and [stop] that default is [None]. *)
Definition Prompt_new (b : PromptBody) : Prompt :=
  {| messages := body_messages b;
     use_knowledge_base := body_use_knowledge_base b;
     temperature := Field float_0_2 (body_temperature b);
     top_p := Field float_0_7 (body_top_p b);
     max_tokens := Field 1024%Z (body_max_tokens b);
     seed := Field 42%Z (body_seed b);
     bad := body_bad b;
     stop := body_stop b;
     stream := Field false (body_stream b) |}.

(** The values a field of [Prompt] holds. *)
Inductive Value :=
| VNone
| VBool (b : bool)
| VInt (z : Z)
| VFloat (f : float)
| VStrList (l : list string)
| VMessages (l : list Message).

Definition VOptStrList (o : option (list string)) : Value :=
  match o with
  | Some l => VStrList l
  | None => VNone
  end.

(** [vars(prompt).items()]: the fields in the order of their declaration. *)
Definition vars (p : Prompt) : list (string * Value) :=
  [ ("messages", VMessages (messages p));
    ("use_knowledge_base", VBool (use_knowledge_base p));
    ("temperature", VFloat (temperature p));
    ("top_p", VFloat (top_p p));
    ("max_tokens", VInt (max_tokens p));
    ("seed", VInt (seed p));
    ("bad", VOptStrList (bad p));
    ("stop", VOptStrList (stop p));
    ("stream", VBool (stream p)) ].

Definition Settings := list (string * Value).

(** [{key: value for key, value in vars(prompt).items()
      if key not in ['messages', 'use_knowledge_base']}] *)
Definition llm_settings (p : Prompt) : Settings :=
  filter (fun kv => negb (str_in (fst kv) ["messages"; "use_knowledge_base"]))
         (vars p).

(** [del chat_history[i]] acts on the list object that [prompt.messages]
    names: afterwards the prompt holds the shortened list. *)
Definition set_messages (p : Prompt) (h : list Message) : Prompt :=
  {| messages := h;
     use_knowledge_base := use_knowledge_base p;
     temperature := temperature p;
     top_p := top_p p;
     max_tokens := max_tokens p;
     seed := seed p;
     bad := bad p;
     stop := stop p;
     stream := stream p |}.

(** ** class DocumentSearch (fields [content] and [num_docs]) *)

Record DocumentSearch := mkDocumentSearch {
  search_content : string;
  num_docs : Z
}.

(** ** Paths (posixpath) *)

(** [p.rfind(c)]: the greatest index of [c] in [p], or -1. *)
Fixpoint rfind (c : ascii) (p : string) : Z :=
  match p with
  | EmptyString => (-1)%Z
  | String a p' =>
      let r := rfind c p' in
      if (0 <=? r)%Z then (r + 1)%Z
      else if Ascii.eqb a c then 0%Z else (-1)%Z
  end.

(** [p[i:]] for [0 <= i]. *)
Fixpoint drop (i : nat) (p : string) : string :=
  match i, p with
  | O, _ => p
  | S j, EmptyString => EmptyString
  | S j, String _ p' => drop j p'
  end.

Definition sep : ascii := "/"%char.

(** [os.path.basename]: [i = p.rfind(sep) + 1; return p[i:]]. *)
Definition basename (p : string) : string :=
  let i := (rfind sep p + 1)%Z in
  drop (Z.to_nat i) p.

Definition startswith_sep (p : string) : bool :=
  match p with
  | String a _ => Ascii.eqb a sep
  | EmptyString => false
  end.

Fixpoint endswith_sep (p : string) : bool :=
  match p with
  | EmptyString => false
  | String a EmptyString => Ascii.eqb a sep
  | String _ p' => endswith_sep p'
  end.

(** [os.path.join(a, b)]: [b] alone when it is absolute, else [a] and [b]
    with one separator between them unless [a] is empty or brings its own. *)
Definition path_join (a b : string) : string :=
  if startswith_sep b then b
  else if (a =? "")%string || endswith_sep a then a ++ b
  else a ++ String sep b.

(** [s.endswith(suffix)] *)
Definition endswith (s suffix : string) : bool :=
  let n := String.length s in
  let k := String.length suffix in
  (k <=? n)%nat && (drop (n - k) s =? suffix)%string.

(** The path holds a separator. *)
Fixpoint has_sep (p : string) : bool :=
  match p with
  | EmptyString => false
  | String a p' => Ascii.eqb a sep || has_sep p'
  end.

(** ** The outside of the process *)

(** What the server runs against: the state of everything outside it (file
    system, vector store, models), the state of a handler object, the lazy
    sequence a chain returns, the mapping a search returns, and the two
    file-system operations of [upload_document]. *)
Record Env := mkEnv {
  World : Type;
  Obj : Type;
  Generator : Type;
  Doc : Type;
  (** [Path(p).mkdir(parents=True, exist_ok=True)] *)
  mkdir : string -> World -> Result unit * World;
  (** [with open(p, "wb") as f: shutil.copyfileobj(src, f)] *)
  copyfile : string -> list byte -> World -> Result unit * World
}.

(** An attribute looked up with [hasattr] and [callable]. *)
Inductive Attr (F : Type) : Type :=
| Missing
| NotCallable
| Callable (f : F).
Arguments Missing {F}.
Arguments NotCallable {F}.
Arguments Callable {F} f.

(** A class of an example module: its name, [dir(cls)], its constructor and
    the operations the server calls on an instance; [document_search_attr]
    is what looking up the attribute [document_search] on an instance
    finds.  Every operation may raise and may change the world. *)
Record ExampleClass (E : Env) := mkExampleClass {
  cls_name : string;
  cls_dir : list string;
  cls_init : World E -> Result (Obj E) * World E;
  ingest_docs : Obj E -> string -> string -> World E -> Result unit * World E;
  rag_chain : Obj E -> option string -> list Message -> Settings ->
              World E -> Result (Generator E) * World E;
  llm_chain : Obj E -> option string -> list Message -> Settings ->
              World E -> Result (Generator E) * World E;
  document_search_attr :
    Obj E -> Attr (string -> Z -> World E -> Result (list (Doc E)) * World E)
}.

(** An object: its identity, its class and its own state. *)
Record Instance (E : Env) := mkInstance {
  inst_id : nat;
  inst_class : ExampleClass E;
  inst_state : Obj E
}.

(** A file met by [os.walk]: its name and what executing it as a module
    gives, the classes [getmembers(module, isclass)] lists (sorted by name). *)
Record SourceFile (E : Env) := mkSourceFile {
  file_name : string;
  exec_module : World E -> Result (list (string * ExampleClass E)) * World E
}.

(** ** Observable events *)

Inductive Level := INFO | ERROR.
Inductive Chain := RagChain | LlmChain.

(** What a run does to the outside, in order: objects constructed (with the
    identity each gets), operations called on them, file-system calls, log
    records. *)
Inductive Event :=
| EvNew (cls : string) (id : nat)
| EvIngest (id : nat) (file_path upload_file : string)
| EvChain (c : Chain) (id : nat) (query : option string)
          (chat_history : list Message) (settings : Settings)
| EvSearch (id : nat) (content : string) (num : Z)
| EvImport (location : string)
| EvMkdir (path : string)
| EvWrite (path : string) (data : list byte)
| EvLog (l : Level) (msg : string).

(** ** The monad of the server: state, exceptions, events *)

Record State (E : Env) := mkState {
  app_example : option (ExampleClass E);   (* the attribute [app.example] *)
  next_id : nat;                           (* objects constructed so far *)
  world : World E
}.

Record Outcome (E : Env) (A : Type) := mkOutcome {
  result : Result A;
  state : State E;
  events : list Event
}.

Definition M (E : Env) (A : Type) : Type := State E -> Outcome E A.

Section Monad.
Context {E : Env}.

Definition ret {A} (a : A) : M E A :=
  fun s => mkOutcome (Ok a) s [].

Definition raise {A} (e : Exception) : M E A :=
  fun s => mkOutcome (Raise e) s [].

(** The outcome [o] of what ran after the events [evs]. *)
Definition prepend {A} (evs : list Event) (o : Outcome E A) : Outcome E A :=
  match o with
  | mkOutcome r s evs' => mkOutcome r s (evs ++ evs')
  end.

Definition bind {A B} (m : M E A) (k : A -> M E B) : M E B :=
  fun s =>
    match m s with
    | mkOutcome (Ok a) s1 evs => prepend evs (k a s1)
    | mkOutcome (Raise e) s1 evs => mkOutcome (Raise e) s1 evs
    end.

(** [try: m except Exception as e: h e] *)
Definition try_except {A} (m : M E A) (h : Exception -> M E A) : M E A :=
  fun s =>
    match m s with
    | mkOutcome (Ok a) s1 evs => mkOutcome (Ok a) s1 evs
    | mkOutcome (Raise e) s1 evs => prepend evs (h e s1)
    end.

Definition set_world (s : State E) (w : World E) : State E :=
  {| app_example := app_example s; next_id := next_id s; world := w |}.

(** A call that leaves the process: the event is recorded, the callee acts
    on the world and returns or raises. *)
Definition extern {A} (ev : Event) (f : World E -> Result A * World E) : M E A :=
  fun s =>
    match f (world s) with
    | (r, w) => mkOutcome r (set_world s w) [ev]
    end.

Definition logger (l : Level) (msg : string) : M E unit :=
  fun s => mkOutcome (Ok tt) s [EvLog l msg].

(** Reading [app.example]: an [AttributeError] while startup has not set it. *)
Definition get_app_example : M E (ExampleClass E) :=
  fun s =>
    match app_example s with
    | Some cls => mkOutcome (Ok cls) s []
    | None =>
        mkOutcome (Raise (AttributeError "'FastAPI' object has no attribute 'example'"))
                  s []
    end.

(** [app.example = cls] *)
Definition set_app_example (cls : ExampleClass E) : M E unit :=
  fun s =>
    mkOutcome (Ok tt)
              {| app_example := Some cls; next_id := next_id s; world := world s |} [].

(** [cls()]: a new object, with an identity no earlier object has. *)
Definition construct (cls : ExampleClass E) : M E (Instance E) :=
  fun s =>
    match cls_init cls (world s) with
    | (Ok o, w) =>
        mkOutcome (Ok (mkInstance (next_id s) cls o))
                  {| app_example := app_example s;
                     next_id := S (next_id s);
                     world := w |}
                  [EvNew (cls_name cls) (next_id s)]
    | (Raise e, w) => mkOutcome (Raise e) (set_world s w) []
    end.

End Monad.

Declare Scope server_scope.
Delimit Scope server_scope with server.
Notation "x <- m ;; k" := (bind m (fun x => k))
  (at level 61, m at next level, right associativity) : server_scope.
Notation "m ;; k" := (bind m (fun _ => k))
  (at level 61, right associativity) : server_scope.
Open Scope server_scope.

(** ** Responses *)

(** [JSONResponse(content={...}, status_code=...)] *)
Record JSONResponse := mkJSONResponse {
  json_content : list (string * string);
  json_status_code : Z
}.

(** The body of a streaming response: the generator a chain returned, or
    [iter([...])] over a list of chunks. *)
Inductive Stream (E : Env) : Type :=
| FromGenerator (g : Generator E)
| Iter (chunks : list string).
Arguments FromGenerator {E} g.
Arguments Iter {E} chunks.

Record StreamingResponse (E : Env) := mkStreamingResponse {
  stream_content : Stream E;
  stream_status_code : Z;
  media_type : string
}.

(** [StreamingResponse(content, media_type=...)]: the status code is left
    at the default of the class, 200. *)
Definition StreamingResponse_new {E} (c : Stream E) (mt : string) : StreamingResponse E :=
  {| stream_content := c; stream_status_code := 200; media_type := mt |}.

(** Modelled from the spec: [tracing.instrumentation_wrapper], the decorator
    of the three endpoints, lives in common/tracing.py, outside these
    sources; the spec names the tracing decorators as external
    collaborators and gives each endpoint's contract without them, so the
    wrapper hands the call through. *)
Definition instrumentation_wrapper {A : Type} (func : A) : A := func.

(** ** Startup: import_example *)

Definition EXAMPLE_DIR : string := "RetrievalAugmentedGeneration/example".

Definition required_methods : list string :=
  ["ingest_docs"; "llm_chain"; "rag_chain"].

(** [set(a).issubset(set(b))] *)
Definition issubset (a b : list string) : bool :=
  forallb (fun x => str_in x b) a.

Section Startup.
Context {E : Env}.

(** The loop over [getmembers(module, isclass)]; [true] when a class was
    bound (the function returns), [false] when the loop ran out.  The bare
    [except] turns whatever the body raises into a [ValueError]. *)
Fixpoint scan_members (members : list (string * ExampleClass E)) : M E bool :=
  match members with
  | [] => ret false
  | (name, cls) :: rest =>
      found <- try_except
                 (if issubset required_methods (cls_dir cls) then
                    if (name =? "BaseExample")%string then ret false
                    else (_ <- construct cls ;;
                          set_app_example cls ;;
                          ret true)
                  else ret false)
                 (fun _ => raise (ValueError
                    ("Class " ++ name ++
                     " is not implemented and could not be instantiated."))) ;;
      if found then ret true else scan_members rest
  end.

(** The loop over the files of one directory. *)
Fixpoint scan_files (root : string) (files : list (SourceFile E)) : M E bool :=
  match files with
  | [] => ret false
  | f :: rest =>
      if negb (endswith (file_name f) ".py") then scan_files root rest
      else
        members <- extern (EvImport (path_join root (file_name f))) (exec_module f) ;;
        found <- scan_members members ;;
        if found then ret true else scan_files root rest
  end.

(** The loop over [os.walk(EXAMPLE_DIR)]. *)
Fixpoint scan_walk (walk : list (string * list (SourceFile E))) : M E bool :=
  match walk with
  | [] => ret false
  | (root, files) :: rest =>
      found <- scan_files root files ;;
      if found then ret true else scan_walk rest
  end.

Definition import_example (walk : list (string * list (SourceFile E))) : M E unit :=
  found <- scan_walk walk ;;
  if found then ret tt
  else raise (NotImplementedError
                ("Could not find a valid example class in " ++ EXAMPLE_DIR)).

End Startup.

(** ** The endpoints *)

(** An uploaded file: [file.filename] (which may be [None]) and the bytes
    behind [file.file]. *)
Record UploadFile := mkUploadFile {
  filename : option string;
  file_bytes : list byte
}.

(** [not file.filename]: [None] and the empty string are falsy. *)
Definition no_filename (f : UploadFile) : bool :=
  match filename f with
  | None => true
  | Some n => (n =? "")%string
  end.

Definition filename_str (f : UploadFile) : string :=
  match filename f with
  | Some n => n
  | None => ""
  end.

Definition milvus_message : string :=
  "Error from milvus server. Please ensure you have ingested some documents. Please check chain-server logs for more details.".

Definition chain_server_message : string :=
  "Error from chain server. Please check chain-server logs for more details.".

Section Endpoints.
Context {E : Env}.

(** [app.example()] *)
Definition app_example_call : M E (Instance E) :=
  cls <- get_app_example ;;
  o <- construct cls ;;
  ret o.

(** [example.ingest_docs(file_path, upload_file)] *)
Definition call_ingest_docs (example : Instance E) (file_path upload_file : string) : M E unit :=
  extern (EvIngest (inst_id example) file_path upload_file)
         (ingest_docs (inst_class example) (inst_state example) file_path upload_file).

(** [example.rag_chain(query=..., chat_history=..., **llm_settings)] and
    the same call of [llm_chain]. *)
Definition call_chain (c : Chain) (example : Instance E) (query : option string)
    (chat_history : list Message) (settings : Settings) : M E (Generator E) :=
  extern (EvChain c (inst_id example) query chat_history settings)
         (match c with
          | RagChain => rag_chain (inst_class example) (inst_state example)
                                  query chat_history settings
          | LlmChain => llm_chain (inst_class example) (inst_state example)
                                  query chat_history settings
          end).

(** The body of the [try] of [upload_document]. *)
Definition upload_document_try (file : UploadFile) : M E JSONResponse :=
  let upload_folder := "uploaded_files" in
  let upload_file := basename (filename_str file) in
  if (upload_file =? "")%string
  then raise (RuntimeError "Error parsing uploaded filename.")
  else
    let file_path := path_join upload_folder upload_file in
    extern (EvMkdir upload_folder) (mkdir E upload_folder) ;;
    extern (EvWrite file_path (file_bytes file))
           (copyfile E file_path (file_bytes file)) ;;
    example <- app_example_call ;;
    call_ingest_docs example file_path upload_file ;;
    ret (mkJSONResponse [("message", "File uploaded successfully")] 200).

Definition upload_document : UploadFile -> M E JSONResponse :=
  instrumentation_wrapper (fun file =>
    if no_filename file
    then ret (mkJSONResponse [("message", "No files provided")] 200)
    else
      try_except (upload_document_try file)
        (fun e =>
           logger ERROR
             ("Error from /uploadDocument endpoint. Ingestion of file: "
              ++ filename_str file ++ " failed with error: " ++ exc_str e) ;;
           ret (mkJSONResponse [("message", exc_str e)] 500))).

(** The body of the [try] of [generate_answer]: the dispatch. *)
Definition generate_answer_try (use_kb : bool) (query : option string)
    (chat_history : list Message) (settings : Settings) : M E (StreamingResponse E) :=
  example <- app_example_call ;;
  if use_kb then
    logger INFO "Knowledge base is enabled. Using rag chain for response generation." ;;
    generator <- call_chain RagChain example query chat_history settings ;;
    ret (StreamingResponse_new (FromGenerator generator) "text/event-stream")
  else
    generator <- call_chain LlmChain example query chat_history settings ;;
    ret (StreamingResponse_new (FromGenerator generator) "text/event-stream").

Definition generate_answer : Prompt -> M E (StreamingResponse E) :=
  instrumentation_wrapper (fun prompt =>
    let chat_history := messages prompt in
    let query := last_user_message chat_history in
    let chat_history := remove_last_user chat_history in
    let prompt := set_messages prompt chat_history in
    let settings := llm_settings prompt in
    try_except
      (generate_answer_try (use_knowledge_base prompt) query chat_history settings)
      (fun e =>
         if isinstance e "MilvusException" || isinstance e "MilvusUnavailableException"
         then
           logger ERROR
             ("Error from Milvus database in /generate endpoint. Please ensure you have ingested some documents. Error details: "
              ++ exc_str e) ;;
           ret (StreamingResponse_new (Iter [milvus_message]) "text/event-stream")
         else
           logger ERROR
             ("Error from /generate endpoint. Error details: " ++ exc_str e) ;;
           ret (StreamingResponse_new (Iter [chain_server_message]) "text/event-stream"))).

(** The body of the [try] of [document_search]. *)
Definition document_search_try (data : DocumentSearch) : M E (list (Doc E)) :=
  example <- app_example_call ;;
  match document_search_attr (inst_class example) (inst_state example) with
  | Callable f =>
      extern (EvSearch (inst_id example) (search_content data) (num_docs data))
             (f (search_content data) (num_docs data))
  | _ =>
      raise (NotImplementedError
               "Example class has not implemented the document_search method.")
  end.

Definition document_search : DocumentSearch -> M E (list (Doc E)) :=
  instrumentation_wrapper (fun data =>
    try_except (document_search_try data)
      (fun e =>
         logger ERROR
           ("Error from /documentSearch endpoint. Error details: " ++ exc_str e) ;;
         ret [])).

End Endpoints.

(** ** The process: startup, then requests *)

Inductive Request :=
| ReqUpload (file : UploadFile)
| ReqGenerate (prompt : Prompt)
| ReqSearch (data : DocumentSearch).

Inductive Response (E : Env) : Type :=
| RespJSON (r : JSONResponse)
| RespStream (r : StreamingResponse E)
| RespDocs (docs : list (Doc E)).
Arguments RespJSON {E} r.
Arguments RespStream {E} r.
Arguments RespDocs {E} docs.

Section Process.
Context {E : Env}.

Definition serve (r : Request) : M E (Response E) :=
  match r with
  | ReqUpload file => x <- upload_document file ;; ret (RespJSON x)
  | ReqGenerate prompt => x <- generate_answer prompt ;; ret (RespStream x)
  | ReqSearch data => x <- document_search data ;; ret (RespDocs x)
  end.

(** An endpoint that raised would be answered by the framework and the
    process would go on with the next request. *)
Definition attempt {A} (m : M E A) : M E (Result A) :=
  fun s =>
    match m s with
    | mkOutcome r s1 evs => mkOutcome (Ok r) s1 evs
    end.

Fixpoint serve_all (reqs : list Request) : M E (list (Result (Response E))) :=
  match reqs with
  | [] => ret []
  | r :: rest =>
      x <- attempt (serve r) ;;
      xs <- serve_all rest ;;
      ret (x :: xs)
  end.

(** The startup hook runs once; when it raises the process serves nothing. *)
Definition run_process (walk : list (string * list (SourceFile E)))
    (reqs : list Request) : M E (list (Result (Response E))) :=
  import_example walk ;;
  serve_all reqs.

End Process.

(** ** Reading a trace *)

(** The identities of the objects the handler operations were called on. *)
Definition instance_used (ev : Event) : list nat :=
  match ev with
  | EvIngest id _ _ => [id]
  | EvChain _ id _ _ _ => [id]
  | EvSearch id _ _ => [id]
  | _ => []
  end.

Definition instances_used (evs : list Event) : list nat :=
  flat_map instance_used evs.

(** The identities the handler operations ran on rise strictly and lie in
    [lo, hi). *)
Definition fresh_between (lo hi : nat) (ids : list nat) : Prop :=
  StronglySorted lt ids /\ Forall (fun i => lo <= i < hi) ids.

(** The objects constructed, with the names of their classes. *)
Definition instance_made (ev : Event) : list (string * nat) :=
  match ev with
  | EvNew cls id => [(cls, id)]
  | _ => []
  end.

Definition instances_made (evs : list Event) : list (string * nat) :=
  flat_map instance_made evs.

(** A call of a chain: which one, and the arguments [query], [chat_history]
    and the keyword arguments of [llm_settings]. *)
Record ChainCall := mkChainCall {
  call_chain_kind : Chain;
  call_query : option string;
  call_history : list Message;
  call_settings : Settings
}.

Definition chain_call (ev : Event) : list ChainCall :=
  match ev with
  | EvChain c _ q h st => [mkChainCall c q h st]
  | _ => []
  end.

Definition chain_calls (evs : list Event) : list ChainCall :=
  flat_map chain_call evs.

(** The files written and the ingestion calls. *)
Definition disk_write (ev : Event) : list string :=
  match ev with
  | EvWrite path _ => [path]
  | _ => []
  end.

Definition ingest_call (ev : Event) : list (string * string) :=
  match ev with
  | EvIngest _ file_path upload_file => [(file_path, upload_file)]
  | _ => []
  end.

Definition search_call (ev : Event) : list (string * Z) :=
  match ev with
  | EvSearch _ c n => [(c, n)]
  | _ => []
  end.

Definition log_record (ev : Event) : list (Level * string) :=
  match ev with
  | EvLog l msg => [(l, msg)]
  | _ => []
  end.

(** ** A stub environment

    A world that is the list of files written, newest first, and a handler
    class whose operations answer at once; [flaky] names the operations
    that raise instead. *)
Module Stub.

Definition env : Env :=
  {| World := list (string * list byte);
     Obj := unit;
     Generator := list string;
     Doc := string;
     mkdir := fun _ w => (Ok tt, w);
     copyfile := fun p d w => (Ok tt, (p, d) :: w) |}.

Definition MilvusException (msg : string) : Exception :=
  mkException ["MilvusException"] msg.

Definition example (flaky : list string) (search : bool) : ExampleClass env :=
  @mkExampleClass env
    "StubExample"
    ["document_search"; "ingest_docs"; "llm_chain"; "rag_chain"]
    (fun w =>
       if str_in "__init__" flaky then (Raise (RuntimeError "no model"), w)
       else (Ok tt, w))
    (fun _ _ _ w =>
       if str_in "ingest_docs" flaky then (Raise (ValueError "unreadable"), w)
       else (Ok tt, w))
    (fun _ _ _ _ w =>
       if str_in "rag_chain" flaky then (Raise (MilvusException "no collection"), w)
       else (Ok ["rag"], w))
    (fun _ _ _ _ w =>
       if str_in "llm_chain" flaky then (Raise (RuntimeError "no model"), w)
       else (Ok ["llm"], w))
    (fun _ =>
       if search then
         Callable (fun c _ w =>
           if str_in "document_search" flaky
           then (Raise (MilvusException "no collection"), w)
           else (Ok [c], w))
       else Missing).

(** A process whose startup bound [cls]: the probe object took identity 0. *)
Definition started (cls : ExampleClass env) : State env :=
  @mkState env (Some cls) 1 [].

Definition fresh : State env :=
  @mkState env None 0 [].

Definition walk (cls : ExampleClass env) : list (string * list (SourceFile env)) :=
  [ (EXAMPLE_DIR,
     [ @mkSourceFile env "README.md" (fun w => (Ok [], w));
       @mkSourceFile env "chains.py"
         (fun w => (Ok [("BaseExample", cls); ("StubExample", cls)], w)) ]) ].

Definition prompt (use_kb : bool) (msgs : list Message) : Prompt :=
  Prompt_new (mkPromptBody msgs use_kb None None None None None None None).

(** A module as an example directory has it: the abstract base class,
    which cannot be constructed, a class without the three methods, and
    the example itself. *)
Definition helper : ExampleClass env :=
  @mkExampleClass env
    "Helper"
    ["__init__"; "format"]
    (fun w => (Ok tt, w))
    (fun _ _ _ w => (Ok tt, w))
    (fun _ _ _ _ w => (Ok [], w))
    (fun _ _ _ _ w => (Ok [], w))
    (fun _ => Missing).

Definition walk_with_base (cls : ExampleClass env)
    : list (string * list (SourceFile env)) :=
  [ (EXAMPLE_DIR,
     [ @mkSourceFile env "README.md" (fun w => (Ok [], w));
       @mkSourceFile env "chains.py"
         (fun w => (Ok [("BaseExample", example ["__init__"] false);
                        ("Helper", helper);
                        ("StubExample", cls)], w)) ]) ].

(** Two worlds with a broken disk: one where no directory can be made, one
    where no file can be written. *)
Definition read_only : Env :=
  {| World := unit;
     Obj := unit;
     Generator := list string;
     Doc := string;
     mkdir := fun _ w =>
       (Raise (mkException ["PermissionError"; "OSError"] "Permission denied"), w);
     copyfile := fun _ _ w => (Ok tt, w) |}.

Definition full_disk : Env :=
  {| World := unit;
     Obj := unit;
     Generator := list string;
     Doc := string;
     mkdir := fun _ w => (Ok tt, w);
     copyfile := fun _ _ w =>
       (Raise (mkException ["OSError"] "No space left on device"), w) |}.

End Stub.

(** ** Reading a directory walk *)

(** The test a class passes in [import_example] before it is constructed:
    the three methods are in [dir(cls)] and the name it is listed under is
    not "BaseExample". *)
Definition qualifies {E : Env} (name : string) (cls : ExampleClass E) : bool :=
  issubset required_methods (cls_dir cls) && negb (name =? "BaseExample")%string.

(** The class [cls] is one the walk offers: a Python file of the walk, run
    as a module, lists it under a name with which it passes the test. *)
Definition found_in {E : Env} (walk : list (string * list (SourceFile E)))
    (cls : ExampleClass E) : Prop :=
  exists root files f w members name,
    In (root, files) walk /\
    In f files /\
    endswith (file_name f) ".py" = true /\
    fst (exec_module f w) = Ok members /\
    In (name, cls) members /\
    qualifies name cls = true.

(** The locations of the files of a walk whose names end with ".py", in the
    order of the walk. *)
Definition py_locations {E : Env} (walk : list (string * list (SourceFile E)))
    : list string :=
  flat_map (fun d =>
              map (fun f => path_join (fst d) (file_name f))
                  (filter (fun f => endswith (file_name f) ".py") (snd d)))
           walk.

(** What a scan of [import_example] has done, started in the state [s]:
    when it reports a class found, [app.example] holds a class with the
    three methods and one object of it was constructed, with the identity
    next in line; otherwise [app.example] and the identities are as they
    were and nothing was constructed. *)
Definition scan_outcome {E : Env} (s : State E) (o : Outcome E bool) : Prop :=
  match result o with
  | Ok true =>
      exists cls,
        app_example (state o) = Some cls /\
        issubset required_methods (cls_dir cls) = true /\
        instances_made (events o) = [(cls_name cls, next_id s)] /\
        next_id (state o) = S (next_id s)
  | _ =>
      app_example (state o) = app_example s /\
      instances_made (events o) = [] /\
      next_id (state o) = next_id s
  end.

(** ** Running the monad *)

Ltac unfold_server :=
  unfold document_search, document_search_try,
         generate_answer, generate_answer_try,
         upload_document, upload_document_try,
         instrumentation_wrapper, app_example_call, call_chain,
         call_ingest_docs, get_app_example, construct, set_app_example,
         extern, logger, try_except, bind, prepend, ret, raise, set_world in *.

(** Split on what a call into the world returned. *)
Ltac case_world :=
  match goal with
  | |- context [match ?rw with pair _ _ => _ end] =>
      let r := fresh "r" in
      let w := fresh "w" in
      let Hrw := fresh "Hrw" in
      destruct rw as [r w] eqn:Hrw; destruct r; cbn
  end.

(** * Properties *)

(** ** Roles *)

Lemma str_in_In (x : string) (l : list string) :
  str_in x l = true <-> In x l.
Proof.
  unfold str_in. rewrite existsb_exists. split.
  - intros [y [Hy Heq]]. apply String.eqb_eq in Heq. now subst.
  - intros H. exists x. split; [assumption | apply String.eqb_refl].
Qed.

Lemma is_user_true (m : Message) : is_user m = true <-> role m = "user".
Proof. unfold is_user. apply String.eqb_eq. Qed.

Lemma is_user_false (m : Message) : is_user m = false <-> role m <> "user".
Proof. unfold is_user. apply String.eqb_neq. Qed.

Lemma valid_role_not_user (m : Message) :
  In (role m) valid_roles -> is_user m = false ->
  role m = "assistant" \/ role m = "system".
Proof.
  intros Hin Hu. apply is_user_false in Hu.
  simpl in Hin. destruct Hin as [H | [H | [H | []]]]; auto.
  symmetry in H. contradiction.
Qed.

(** ** The last user message *)

Lemma find_app_l {A} (f : A -> bool) (l1 l2 : list A) :
  find f (l1 ++ l2) =
  match find f l1 with
  | Some x => Some x
  | None => find f l2
  end.
Proof.
  induction l1 as [| a l1 IH]; simpl; [reflexivity |].
  destruct (f a); [reflexivity | apply IH].
Qed.

Lemma find_none_forall {A} (f : A -> bool) (l : list A) :
  Forall (fun x => f x = false) l -> find f l = None.
Proof.
  induction 1 as [| a l Ha _ IH]; simpl; [reflexivity |].
  now rewrite Ha.
Qed.

Lemma last_user_message_split (pre post : list Message) (u : Message) :
  is_user u = true ->
  Forall (fun m => is_user m = false) post ->
  last_user_message (pre ++ u :: post) = Some (content u).
Proof.
  intros Hu Hpost. unfold last_user_message.
  rewrite rev_app_distr. simpl. rewrite <- app_assoc. simpl.
  rewrite find_app_l, find_none_forall.
  - simpl. now rewrite Hu.
  - apply Forall_rev. assumption.
Qed.

Lemma last_user_message_none (h : list Message) :
  Forall (fun m => is_user m = false) h ->
  last_user_message h = None.
Proof.
  intros H. unfold last_user_message.
  rewrite find_none_forall; [reflexivity | now apply Forall_rev].
Qed.

(** The loop passes over the indices that hold no user message. *)
Lemma del_last_user_from_skip (h : list Message) (k n : nat) :
  (forall j m, k <= j < k + n -> nth_error h j = Some m -> is_user m = false) ->
  del_last_user_from (k + n) h = del_last_user_from k h.
Proof.
  induction n as [| n IH]; intros Hno.
  - now rewrite Nat.add_0_r.
  - replace (k + S n) with (S (k + n)) by lia. simpl.
    assert (IH' : del_last_user_from (k + n) h = del_last_user_from k h).
    { apply IH. intros j m Hj. apply Hno. lia. }
    destruct (nth_error h (k + n)) as [m |] eqn:Hnth; [| exact IH'].
    rewrite (Hno (k + n) m); [exact IH' | lia | exact Hnth].
Qed.

Lemma del_at_middle {A} (pre post : list A) (u : A) :
  del_at (length pre) (pre ++ u :: post) = pre ++ post.
Proof.
  unfold del_at. induction pre as [| a pre IH]; simpl.
  - reflexivity.
  - f_equal. exact IH.
Qed.

Lemma remove_last_user_split (pre post : list Message) (u : Message) :
  is_user u = true ->
  Forall (fun m => is_user m = false) post ->
  remove_last_user (pre ++ u :: post) = pre ++ post.
Proof.
  intros Hu Hpost. unfold remove_last_user.
  rewrite length_app. simpl.
  replace (length pre + S (length post)) with (S (length pre) + length post) by lia.
  rewrite del_last_user_from_skip.
  - simpl. rewrite nth_error_app2, Nat.sub_diag by lia. simpl.
    rewrite Hu. apply del_at_middle.
  - intros j m Hj Hnth.
    rewrite nth_error_app2 in Hnth by lia.
    destruct (j - length pre) as [| i] eqn:Hi; [lia |].
    simpl in Hnth. apply nth_error_In in Hnth.
    rewrite Forall_forall in Hpost. now apply Hpost.
Qed.

Lemma remove_last_user_none (h : list Message) :
  Forall (fun m => is_user m = false) h ->
  remove_last_user h = h.
Proof.
  intros H. unfold remove_last_user.
  change (length h) with (0 + length h).
  rewrite del_last_user_from_skip; [reflexivity |].
  intros j m _ Hnth. apply nth_error_In in Hnth.
  rewrite Forall_forall in H. now apply H.
Qed.

(** Every history either holds no user message or splits at its last one. *)
Lemma last_user_split (h : list Message) :
  Forall (fun m => is_user m = false) h \/
  exists pre u post,
    h = pre ++ u :: post /\ is_user u = true /\
    Forall (fun m => is_user m = false) post.
Proof.
  induction h as [| a h IH].
  - left. constructor.
  - destruct IH as [Hno | (pre & u & post & Heq & Hu & Hpost)].
    + destruct (is_user a) eqn:Ha.
      * right. exists [], a, h. auto.
      * left. constructor; assumption.
    + right. exists (a :: pre), u, post. subst h. auto.
Qed.

Lemma llm_settings_set_messages (p : Prompt) (h : list Message) :
  llm_settings (set_messages p h) = llm_settings p.
Proof. reflexivity. Qed.

(** What [generate_answer] passes on: one call of the chain the flag
    selects, with the query, the shortened history and the settings, once
    the handler object is there; no call otherwise. *)
Lemma generate_answer_chain_calls (E : Env) (p : Prompt) (s : State E) :
  chain_calls (events (generate_answer p s)) =
  match result (app_example_call s) with
  | Ok _ =>
      [mkChainCall (if use_knowledge_base p then RagChain else LlmChain)
                   (last_user_message (messages p))
                   (remove_last_user (messages p))
                   (llm_settings p)]
  | Raise _ => []
  end.
Proof.
  unfold_server. cbn.
  destruct (app_example s) as [cls |]; cbn.
  - case_world.
    + destruct (use_knowledge_base p); cbn; case_world; try reflexivity;
        destruct (isinstance _ _ || isinstance _ _); reflexivity.
    + destruct (isinstance _ _ || isinstance _ _); reflexivity.
  - reflexivity.
Qed.

(** ** generate_answer *)

(** C2: when the last message of a request has the role "user", the chain
    is called with that message's content as the query and with the
    history without exactly that message; when no message has the role
    "user", the query is [None] and the history is the message list as it
    came.  The chain is called (once) whenever the handler object could be
    made. *)
Theorem generate_query_is_last_user_turn (E : Env) (p : Prompt) (s : State E) :
  (forall init m,
      messages p = init ++ [m] -> role m = "user" ->
      Forall (fun k => call_query k = Some (content m) /\ call_history k = init)
             (chain_calls (events (generate_answer p s)))) /\
  ((forall m, In m (messages p) -> role m <> "user") ->
      Forall (fun k => call_query k = None /\ call_history k = messages p)
             (chain_calls (events (generate_answer p s)))) /\
  (forall example,
      result (app_example_call s) = Ok example ->
      length (chain_calls (events (generate_answer p s))) = 1).
Proof.
  rewrite generate_answer_chain_calls.
  split; [| split].
  - intros init m Hp Hm.
    destruct (result (app_example_call s)); constructor; [| constructor]. cbn.
    rewrite Hp. apply is_user_true in Hm.
    rewrite last_user_message_split, remove_last_user_split by (auto || constructor).
    now rewrite app_nil_r.
  - intros Hno.
    assert (Hall : Forall (fun m => is_user m = false) (messages p)).
    { apply Forall_forall. intros m Hin. apply is_user_false. now apply Hno. }
    destruct (result (app_example_call s)); constructor; [| constructor]. cbn.
    now rewrite last_user_message_none, remove_last_user_none.
  - intros example Hex. now rewrite Hex.
Qed.

Lemma generate_query_is_last_user_turn_witness :
  Forall (fun k => call_query k = Some "q" /\
                   call_history k = [mkMessage "assistant" "hi"])
         (chain_calls (events (generate_answer
            (Stub.prompt false [mkMessage "assistant" "hi"; mkMessage "user" "q"])
            (Stub.started (Stub.example [] true))))) /\
  Forall (fun k => call_query k = None /\
                   call_history k = [mkMessage "system" "be brief"])
         (chain_calls (events (generate_answer
            (Stub.prompt false [mkMessage "system" "be brief"])
            (Stub.started (Stub.example [] true))))) /\
  length (chain_calls (events (generate_answer
            (Stub.prompt false [mkMessage "assistant" "hi"; mkMessage "user" "q"])
            (Stub.started (Stub.example [] true))))) = 1.
Proof.
  split; [| split].
  - apply (generate_query_is_last_user_turn
             (Stub.prompt false [mkMessage "assistant" "hi"; mkMessage "user" "q"])
             (Stub.started (Stub.example [] true))
           : _ /\ _)
      with (init := [mkMessage "assistant" "hi"]) (m := mkMessage "user" "q");
      reflexivity.
  - apply (generate_query_is_last_user_turn
             (Stub.prompt false [mkMessage "system" "be brief"])
             (Stub.started (Stub.example [] true))).
    intros m [Hm | []]. subst m. discriminate.
  - eapply (generate_query_is_last_user_turn
              (Stub.prompt false [mkMessage "assistant" "hi"; mkMessage "user" "q"])
              (Stub.started (Stub.example [] true))).
    reflexivity.
Defined.

Lemma last_message_In (h : list Message) (m : Message) :
  last_message h = Some m -> In m h.
Proof.
  unfold last_message. intros H. apply in_rev.
  destruct (rev h); [discriminate |]. injection H as ->. now left.
Qed.

(** Where the history without the last user message ends: on a user
    message exactly when the request ended with two of them. *)
Lemma remove_last_user_last (h : list Message) :
  match last_message (remove_last_user h) with
  | Some m => is_user m = ends_with_two_users h
  | None => ends_with_two_users h = false
  end.
Proof.
  destruct (last_user_split h) as [Hno | (pre & u & post & Heq & Hu & Hpost)].
  - rewrite remove_last_user_none by assumption.
    unfold last_message, ends_with_two_users.
    apply Forall_rev in Hno.
    destruct (rev h) as [| a [| b l]]; simpl; try reflexivity;
      inversion Hno as [| ? ? Ha _]; subst; rewrite Ha; reflexivity.
  - subst h. rewrite remove_last_user_split by assumption.
    destruct post as [| x post] using rev_ind.
    + rewrite app_nil_r. unfold last_message, ends_with_two_users.
      rewrite rev_app_distr. simpl.
      destruct (rev pre); [reflexivity |]. simpl. now rewrite Hu.
    + clear IHpost. apply Forall_app in Hpost as [_ Hx].
      inversion Hx as [| ? ? Hx' _]; subst.
      unfold last_message, ends_with_two_users.
      replace (pre ++ u :: post ++ [x]) with ((pre ++ u :: post) ++ [x])
        by (rewrite <- app_assoc; reflexivity).
      rewrite app_assoc, !rev_unit. simpl. rewrite Hx'.
      destruct (rev (pre ++ u :: post)); reflexivity.
Qed.

(** C3 (amended): unless the request ends with two user messages, the
    history passed to the chain does not end with a user message: its last
    message, if any, has the role "assistant" or "system" (the roles being
    those the validator lets through).  When the request does end with two
    user messages, only the second is removed: the query is its content and
    the history passed on is the rest, ending with the first of the two.
    The chain is called (once) whenever the handler object could be made. *)
Theorem generate_history_last_turn (E : Env) (p : Prompt) (s : State E) :
  (forall m, In m (messages p) -> In (role m) valid_roles) ->
  (ends_with_two_users (messages p) = false ->
     Forall (fun k => match last_message (call_history k) with
                      | Some m => role m = "assistant" \/ role m = "system"
                      | None => True
                      end)
            (chain_calls (events (generate_answer p s)))) /\
  (forall init u1 u2,
     messages p = init ++ [u1; u2] -> role u1 = "user" -> role u2 = "user" ->
     ends_with_two_users (messages p) = true /\
     Forall (fun k => call_query k = Some (content u2) /\
                      call_history k = init ++ [u1] /\
                      last_message (call_history k) = Some u1)
            (chain_calls (events (generate_answer p s)))) /\
  (forall example,
     result (app_example_call s) = Ok example ->
     length (chain_calls (events (generate_answer p s))) = 1).
Proof.
  intros Hvalid. rewrite generate_answer_chain_calls.
  pose proof (remove_last_user_last (messages p)) as Hlast.
  split; [| split].
  - intros Htwo. rewrite Htwo in Hlast.
    destruct (result (app_example_call s)); constructor; try constructor; cbn.
    destruct (last_message (remove_last_user (messages p))) as [m |] eqn:Hm;
      [| exact I].
    apply valid_role_not_user; [| assumption].
    apply Hvalid.
    destruct (last_user_split (messages p)) as [Hno | (pre & u & post & Heq & Hu & Hpost)].
    + rewrite remove_last_user_none in Hm by assumption.
      now apply last_message_In.
    + rewrite Heq in *. rewrite remove_last_user_split in Hm by assumption.
      apply last_message_In in Hm. apply in_app_iff in Hm as [Hin | Hin];
        apply in_app_iff; [left | right; right]; assumption.
  - intros init u1 u2 Hp Hu1 Hu2.
    apply is_user_true in Hu1. apply is_user_true in Hu2.
    split.
    + rewrite Hp. unfold ends_with_two_users.
      rewrite rev_app_distr. simpl. now rewrite Hu1, Hu2.
    + destruct (result (app_example_call s)); constructor; [| constructor].
      cbn. rewrite Hp.
      replace (init ++ [u1; u2]) with ((init ++ [u1]) ++ u2 :: [])
        by (rewrite <- app_assoc; reflexivity).
      rewrite last_user_message_split, remove_last_user_split
        by (auto || constructor).
      rewrite app_nil_r. repeat split.
      unfold last_message. now rewrite rev_unit.
  - intros example Hex. now rewrite Hex.
Qed.

Lemma generate_history_last_turn_witness :
  Forall (fun k => match last_message (call_history k) with
                   | Some m => role m = "assistant" \/ role m = "system"
                   | None => True
                   end)
         (chain_calls (events (generate_answer
            (Stub.prompt true [mkMessage "system" "be brief";
                               mkMessage "user" "a";
                               mkMessage "assistant" "b";
                               mkMessage "user" "c"])
            (Stub.started (Stub.example [] true))))) /\
  Forall (fun k => call_query k = Some "b" /\
                   call_history k = [mkMessage "assistant" "hi";
                                     mkMessage "user" "a"] /\
                   last_message (call_history k) = Some (mkMessage "user" "a"))
         (chain_calls (events (generate_answer
            (Stub.prompt true [mkMessage "assistant" "hi";
                               mkMessage "user" "a";
                               mkMessage "user" "b"])
            (Stub.started (Stub.example [] true))))) /\
  length (chain_calls (events (generate_answer
            (Stub.prompt true [mkMessage "system" "be brief";
                               mkMessage "user" "a";
                               mkMessage "assistant" "b";
                               mkMessage "user" "c"])
            (Stub.started (Stub.example [] true))))) = 1.
Proof.
  split; [| split].
  - apply (@generate_history_last_turn Stub.env
             (Stub.prompt true [mkMessage "system" "be brief";
                                mkMessage "user" "a";
                                mkMessage "assistant" "b";
                                mkMessage "user" "c"])
             (Stub.started (Stub.example [] true))).
    + intros m Hin. simpl in Hin.
      destruct Hin as [H | [H | [H | [H | []]]]]; subst m; simpl; auto.
    + reflexivity.
  - refine (proj2 (proj1 (proj2 (@generate_history_last_turn Stub.env
             (Stub.prompt true [mkMessage "assistant" "hi";
                                mkMessage "user" "a";
                                mkMessage "user" "b"])
             (Stub.started (Stub.example [] true)) _))
             [mkMessage "assistant" "hi"] (mkMessage "user" "a")
             (mkMessage "user" "b") eq_refl eq_refl eq_refl)).
    intros m Hin. simpl in Hin.
    destruct Hin as [H | [H | [H | []]]]; subst m; simpl; auto.
  - refine (proj2 (proj2 (@generate_history_last_turn Stub.env
             (Stub.prompt true [mkMessage "system" "be brief";
                                mkMessage "user" "a";
                                mkMessage "assistant" "b";
                                mkMessage "user" "c"])
             (Stub.started (Stub.example [] true)) _))
             (mkInstance 1 (Stub.example [] true) tt) eq_refl).
    intros m Hin. simpl in Hin.
    destruct Hin as [H | [H | [H | [H | []]]]]; subst m; simpl; auto.
Defined.

(** C3 as stated fails: of two user messages in a row only the second is
    removed, and the history passed to the chain ends with the first. *)
Lemma generate_history_may_end_with_user :
  exists k m,
    chain_calls (events (generate_answer
       (Stub.prompt false [mkMessage "user" "a"; mkMessage "user" "b"])
       (Stub.started (Stub.example [] true)))) = [k] /\
    validate_role "user" = Ok "user" /\
    last_message (call_history k) = Some m /\
    role m = "user".
Proof.
  eexists. eexists. repeat split; reflexivity.
Qed.

(** C4: the settings passed to the chain are the seven fields of the
    request other than [messages] and [use_knowledge_base], each with the
    value the body gave or, for a key left out, its default: temperature
    0.2, top_p 0.7, max_tokens 1024, seed 42, stream False ([bad] and
    [stop] default to [None]). *)
Theorem generate_settings_mapping (E : Env) (b : PromptBody) (s : State E) :
  Forall (fun k =>
            call_settings k =
            [ ("temperature",
               VFloat (match body_temperature b with
                       | Some v => v | None => 0x1.999999999999ap-3%float end));
              ("top_p",
               VFloat (match body_top_p b with
                       | Some v => v | None => 0x1.6666666666666p-1%float end));
              ("max_tokens",
               VInt (match body_max_tokens b with
                     | Some v => v | None => 1024%Z end));
              ("seed",
               VInt (match body_seed b with Some v => v | None => 42%Z end));
              ("bad",
               match body_bad b with Some l => VStrList l | None => VNone end);
              ("stop",
               match body_stop b with Some l => VStrList l | None => VNone end);
              ("stream",
               VBool (match body_stream b with
                      | Some v => v | None => false end)) ])
         (chain_calls (events (generate_answer (Prompt_new b) s))) /\
  (forall example,
      result (app_example_call s) = Ok example ->
      length (chain_calls (events (generate_answer (Prompt_new b) s))) = 1).
Proof.
  rewrite generate_answer_chain_calls. split.
  - destruct (result (app_example_call s)); constructor; [| constructor].
    reflexivity.
  - intros example Hex. now rewrite Hex.
Qed.

Lemma generate_settings_mapping_witness :
  Forall (fun k =>
            call_settings k =
            [ ("temperature", VFloat 0x1.999999999999ap-3%float);
              ("top_p", VFloat 0x1.6666666666666p-1%float);
              ("max_tokens", VInt 1024);
              ("seed", VInt 7);
              ("bad", VNone);
              ("stop", VStrList ["###"]);
              ("stream", VBool false) ])
         (chain_calls (events (generate_answer
            (Prompt_new (mkPromptBody [mkMessage "user" "q"] true
                           None None None (Some 7%Z) None (Some ["###"]) None))
            (Stub.started (Stub.example [] true))))) /\
  length (chain_calls (events (generate_answer
            (Prompt_new (mkPromptBody [mkMessage "user" "q"] true
                           None None None (Some 7%Z) None (Some ["###"]) None))
            (Stub.started (Stub.example [] true))))) = 1.
Proof.
  split.
  - exact (proj1 (generate_settings_mapping
             (mkPromptBody [mkMessage "user" "q"] true
                None None None (Some 7%Z) None (Some ["###"]) None)
             (Stub.started (Stub.example [] true)))).
  - eapply (generate_settings_mapping
              (mkPromptBody [mkMessage "user" "q"] true
                 None None None (Some 7%Z) None (Some ["###"]) None)
              (Stub.started (Stub.example [] true))).
    reflexivity.
Defined.

(** The decimal literals of the source denote these binary64 values. *)
#[warnings="-inexact-float"]
Example float_defaults :
  float_0_2 = 0.2%float /\ float_0_7 = 0.7%float.
Proof. split; reflexivity. Qed.

(** C9: with the handler object made, [generate_answer] calls [rag_chain]
    when [use_knowledge_base] is true and [llm_chain] when it is false, in
    both cases with the query, the shortened history and the settings; what
    that call does to the world is what the request does, and the generator
    it returns is the body of the response. *)
Theorem generate_dispatch_by_flag (E : Env) (p : Prompt) (s : State E)
    (cls : ExampleClass E) (obj : Obj E) (w1 : World E) :
  app_example s = Some cls ->
  cls_init cls (world s) = (Ok obj, w1) ->
  chain_calls (events (generate_answer p s)) =
    [mkChainCall (if use_knowledge_base p then RagChain else LlmChain)
                 (last_user_message (messages p))
                 (remove_last_user (messages p))
                 (llm_settings p)] /\
  world (state (generate_answer p s)) =
    snd ((if use_knowledge_base p then rag_chain cls else llm_chain cls)
           obj (last_user_message (messages p))
           (remove_last_user (messages p)) (llm_settings p) w1) /\
  (forall g,
      fst ((if use_knowledge_base p then rag_chain cls else llm_chain cls)
             obj (last_user_message (messages p))
             (remove_last_user (messages p)) (llm_settings p) w1) = Ok g ->
      result (generate_answer p s) =
        Ok (StreamingResponse_new (FromGenerator g) "text/event-stream")).
Proof.
  intros Hcls Hinit. split; [| split].
  - rewrite generate_answer_chain_calls.
    unfold_server. cbn. rewrite Hcls. cbn. now rewrite Hinit.
  - unfold_server. cbn. rewrite Hcls. cbn. rewrite Hinit. cbn.
    destruct (use_knowledge_base p); cbn; case_world; try reflexivity;
      destruct (isinstance _ _ || isinstance _ _); reflexivity.
  - intros g Hg. revert Hg.
    unfold_server. cbn. rewrite Hcls. cbn. rewrite Hinit. cbn.
    destruct (use_knowledge_base p); cbn; case_world;
      intros Hg; try discriminate; injection Hg as ->; reflexivity.
Qed.

Lemma generate_dispatch_by_flag_witness :
  chain_calls (events (generate_answer
     (Stub.prompt true [mkMessage "user" "q"])
     (Stub.started (Stub.example [] true)))) =
    [mkChainCall RagChain (Some "q") []
                 (llm_settings (Stub.prompt true [mkMessage "user" "q"]))] /\
  chain_calls (events (generate_answer
     (Stub.prompt false [mkMessage "user" "q"])
     (Stub.started (Stub.example [] true)))) =
    [mkChainCall LlmChain (Some "q") []
                 (llm_settings (Stub.prompt false [mkMessage "user" "q"]))].
Proof.
  split.
  - apply (@generate_dispatch_by_flag Stub.env
             (Stub.prompt true [mkMessage "user" "q"])
             (Stub.started (Stub.example [] true))
             (Stub.example [] true) tt []); reflexivity.
  - apply (@generate_dispatch_by_flag Stub.env
             (Stub.prompt false [mkMessage "user" "q"])
             (Stub.started (Stub.example [] true))
             (Stub.example [] true) tt []); reflexivity.
Defined.

(** [generate_answer] answers with a stream of status 200 whatever
    happens. *)
Lemma generate_answer_status (E : Env) (p : Prompt) (s : State E) :
  exists r, result (generate_answer p s) = Ok r /\ stream_status_code r = 200%Z.
Proof.
  unfold_server. cbn.
  destruct (app_example s) as [cls |]; cbn.
  - case_world.
    + destruct (use_knowledge_base p); cbn; case_world;
        try (eexists; split; reflexivity);
        destruct (isinstance _ _ || isinstance _ _);
        eexists; split; reflexivity.
    + destruct (isinstance _ _ || isinstance _ _);
        eexists; split; reflexivity.
  - eexists; split; reflexivity.
Qed.

(** C5: when the dispatch of [generate_answer] raises, the response is
    still a stream of status 200, with one chunk: the sentence about the
    milvus server and ingested documents for an exception of the classes
    MilvusException or MilvusUnavailableException, the sentence about the
    chain server and its logs for any other; the two sentences differ, and
    the error goes to the log. *)
Theorem generate_failure_in_band (E : Env) (p : Prompt) (s : State E) :
  (exists r,
      result (generate_answer p s) = Ok r /\ stream_status_code r = 200%Z) /\
  (forall e,
      result (generate_answer_try (use_knowledge_base p)
                (last_user_message (messages p))
                (remove_last_user (messages p))
                (llm_settings p) s) = Raise e ->
      result (generate_answer p s) =
        Ok (@mkStreamingResponse E
              (Iter [if isinstance e "MilvusException" ||
                        isinstance e "MilvusUnavailableException"
                     then "Error from milvus server. Please ensure you have ingested some documents. Please check chain-server logs for more details."
                     else "Error from chain server. Please check chain-server logs for more details."])
              200 "text/event-stream") /\
      exists msg,
        flat_map log_record (events (generate_answer p s)) =
        flat_map log_record
          (events (generate_answer_try (use_knowledge_base p)
                     (last_user_message (messages p))
                     (remove_last_user (messages p))
                     (llm_settings p) s))
        ++ [(ERROR, (msg ++ exc_str e)%string)]) /\
  milvus_message <> chain_server_message.
Proof.
  split; [apply generate_answer_status | split; [| discriminate]].
  intros e.
  unfold generate_answer, instrumentation_wrapper, try_except.
  cbv zeta. rewrite llm_settings_set_messages.
  change (use_knowledge_base (set_messages p (remove_last_user (messages p))))
    with (use_knowledge_base p).
  destruct (generate_answer_try _ _ _ _ s) as [[r | e'] s1 evs];
    cbn [result events]; intros He; [discriminate | injection He as ->].
  destruct (isinstance e "MilvusException" ||
            isinstance e "MilvusUnavailableException");
    (split; [reflexivity |]).
  - exists "Error from Milvus database in /generate endpoint. Please ensure you have ingested some documents. Error details: ".
    cbn -[String.append]. rewrite flat_map_app. reflexivity.
  - exists "Error from /generate endpoint. Error details: ".
    cbn -[String.append]. rewrite flat_map_app. reflexivity.
Qed.

Lemma generate_failure_in_band_witness :
  result (generate_answer (Stub.prompt true [mkMessage "user" "q"])
            (Stub.started (Stub.example ["rag_chain"] true))) =
    Ok (@mkStreamingResponse Stub.env (Iter [milvus_message]) 200 "text/event-stream") /\
  result (generate_answer (Stub.prompt false [mkMessage "user" "q"])
            (Stub.started (Stub.example ["llm_chain"] true))) =
    Ok (@mkStreamingResponse Stub.env (Iter [chain_server_message]) 200 "text/event-stream").
Proof.
  split.
  - apply (proj1 (proj2 (generate_failure_in_band
             (Stub.prompt true [mkMessage "user" "q"])
             (Stub.started (Stub.example ["rag_chain"] true))))
             (Stub.MilvusException "no collection")).
    reflexivity.
  - apply (proj1 (proj2 (generate_failure_in_band
             (Stub.prompt false [mkMessage "user" "q"])
             (Stub.started (Stub.example ["llm_chain"] true))))
             (RuntimeError "no model")).
    reflexivity.
Defined.

(** ** Paths *)

Lemma rfind_lower (c : ascii) (p : string) : (-1 <= rfind c p)%Z.
Proof.
  induction p as [| a p IH]; simpl; [lia |].
  destruct (0 <=? rfind c p)%Z eqn:H0; [lia |].
  destruct (Ascii.eqb a c); lia.
Qed.

Lemma rfind_has_sep (p : string) :
  (0 <=? rfind sep p)%Z = has_sep p.
Proof.
  induction p as [| a p IH]; simpl; [reflexivity |].
  rewrite <- IH.
  destruct (0 <=? rfind sep p)%Z eqn:H0.
  - rewrite orb_true_r. apply Z.leb_le. apply Z.leb_le in H0. lia.
  - rewrite orb_false_r. destruct (Ascii.eqb a sep); reflexivity.
Qed.

(** [basename] by cases on the first character: what follows the last
    separator. *)
Lemma basename_cons (a : ascii) (p : string) :
  basename (String a p) =
  if has_sep p then basename p
  else if Ascii.eqb a sep then p else String a p.
Proof.
  unfold basename. simpl rfind. rewrite <- rfind_has_sep.
  pose proof (rfind_lower sep p) as Hlo.
  destruct (0 <=? rfind sep p)%Z eqn:H0.
  - apply Z.leb_le in H0.
    replace (Z.to_nat (rfind sep p + 1 + 1)) with (S (Z.to_nat (rfind sep p + 1)))
      by lia.
    reflexivity.
  - destruct (Ascii.eqb a sep); reflexivity.
Qed.

Lemma basename_no_sep (p : string) : has_sep (basename p) = false.
Proof.
  induction p as [| a p IH]; [reflexivity |].
  rewrite basename_cons.
  destruct (has_sep p) eqn:Hp; [exact IH |].
  destruct (Ascii.eqb a sep) eqn:Ha; [exact Hp |].
  simpl. now rewrite Ha, Hp.
Qed.

(** The base name is what is left of the path after a directory part that
    is empty or ends with a separator. *)
Lemma basename_suffix (p : string) :
  exists dir,
    p = (dir ++ basename p)%string /\ (dir = "" \/ endswith_sep dir = true).
Proof.
  induction p as [| a p IH].
  - exists "". split; [reflexivity | now left].
  - rewrite basename_cons.
    destruct (has_sep p) eqn:Hp.
    + destruct IH as (dir & Heq & Hdir).
      exists (String a dir). split.
      * simpl. now rewrite <- Heq.
      * right. destruct Hdir as [-> | Hdir].
        -- simpl in Heq. pose proof (basename_no_sep p) as Hn.
           rewrite <- Heq in Hn. congruence.
        -- simpl. destruct dir; [discriminate | exact Hdir].
    + destruct (Ascii.eqb a sep) eqn:Ha.
      * exists (String a ""). split; [reflexivity | right; exact Ha].
      * exists "". split; [reflexivity | now left].
Qed.

Lemma path_join_uploaded_files (b : string) :
  has_sep b = false ->
  path_join "uploaded_files" b = ("uploaded_files/" ++ b)%string.
Proof.
  intros Hb. unfold path_join.
  destruct b as [| a b]; [reflexivity |].
  simpl in Hb. apply orb_false_elim in Hb as [Ha _].
  simpl. rewrite Ha. reflexivity.
Qed.

Example basename_examples :
  basename "../../etc/passwd" = "passwd" /\
  basename "report.pdf" = "report.pdf" /\
  basename "docs/" = "" /\
  path_join "uploaded_files" (basename "../../etc/passwd") = "uploaded_files/passwd".
Proof. repeat split. Qed.

(** ** upload_document *)

(** C6: an upload whose filename is empty (or missing) is answered with
    status 200 and the message "No files provided"; the run has no event
    at all, so nothing is written and [ingest_docs] is not called, and the
    state is the one before. *)
Theorem upload_without_filename (E : Env) (file : UploadFile) (s : State E) :
  filename file = None \/ filename file = Some "" ->
  upload_document file s =
    mkOutcome (Ok (mkJSONResponse [("message", "No files provided")] 200)) s [].
Proof.
  intros Hname. unfold upload_document, instrumentation_wrapper, no_filename.
  destruct Hname as [-> | ->]; reflexivity.
Qed.

Lemma upload_without_filename_witness :
  upload_document (mkUploadFile (Some "") [x41; x42]%byte)
                  (Stub.started (Stub.example [] true)) =
    mkOutcome (Ok (mkJSONResponse [("message", "No files provided")] 200))
              (Stub.started (Stub.example [] true)) [].
Proof.
  apply (@upload_without_filename Stub.env).
  right. reflexivity.
Defined.

Lemma no_filename_false (file : UploadFile) (name : string) :
  filename file = Some name -> name <> "" -> no_filename file = false.
Proof.
  intros Hf Hne. unfold no_filename. rewrite Hf. now apply String.eqb_neq.
Qed.

(** C7: for a non-empty filename the stored path and the ingestion call
    use the base name only, the part after the last separator: every file
    written is uploaded_files/<base name> and every ingestion call is for
    that path and that name, and with the directory made, the bytes
    written and the handler object made there is exactly one such call.
    When the base name is empty the request raises the RuntimeError before
    anything else: the answer has status 500 and the error's message, the
    one event is the log record, the state is the one before. *)
Theorem upload_uses_base_name (E : Env) (file : UploadFile) (s : State E)
    (name : string) :
  filename file = Some name ->
  name <> "" ->
  (exists dir,
      name = (dir ++ basename name)%string /\
      (dir = "" \/ endswith_sep dir = true)) /\
  has_sep (basename name) = false /\
  (basename name <> "" ->
     Forall (fun path => path = ("uploaded_files/" ++ basename name)%string)
            (flat_map disk_write (events (upload_document file s))) /\
     Forall (fun c => c = (("uploaded_files/" ++ basename name)%string,
                           basename name))
            (flat_map ingest_call (events (upload_document file s))) /\
     (forall cls w1 w2 obj w3,
         mkdir E "uploaded_files" (world s) = (Ok tt, w1) ->
         copyfile E ("uploaded_files/" ++ basename name)%string
                  (file_bytes file) w1 = (Ok tt, w2) ->
         app_example s = Some cls ->
         cls_init cls w2 = (Ok obj, w3) ->
         flat_map ingest_call (events (upload_document file s)) =
           [(("uploaded_files/" ++ basename name)%string, basename name)])) /\
  (basename name = "" ->
     upload_document file s =
       mkOutcome
         (Ok (mkJSONResponse
                [("message", "Error parsing uploaded filename.")] 500))
         s
         [EvLog ERROR
            ("Error from /uploadDocument endpoint. Ingestion of file: "
             ++ name
             ++ " failed with error: Error parsing uploaded filename.")]).
Proof.
  intros Hf Hne.
  split; [apply basename_suffix | split; [apply basename_no_sep |]].
  unfold upload_document, instrumentation_wrapper.
  rewrite (no_filename_false file Hf Hne).
  unfold upload_document_try, filename_str. rewrite Hf.
  rewrite (path_join_uploaded_files _ (basename_no_sep name)).
  split.
  - intros Hbase. apply String.eqb_neq in Hbase. rewrite Hbase.
    split; [| split].
    + unfold_server. cbn -[String.append]. case_world; [| repeat constructor].
      case_world; [| repeat constructor].
      destruct (app_example s) as [cls |]; cbn -[String.append];
        [| repeat constructor].
      case_world; [| repeat constructor].
      case_world; repeat constructor.
    + unfold_server. cbn -[String.append]. case_world; [| repeat constructor].
      case_world; [| repeat constructor].
      destruct (app_example s) as [cls |]; cbn -[String.append];
        [| repeat constructor].
      case_world; [| repeat constructor].
      case_world; repeat constructor.
    + intros cls w1 w2 obj w3 Hmk Hcp Hcls Hinit.
      unfold_server. cbn -[String.append].
      rewrite Hmk. cbn -[String.append]. rewrite Hcp. cbn -[String.append].
      rewrite Hcls. cbn -[String.append]. rewrite Hinit. cbn -[String.append].
      case_world; reflexivity.
  - intros Hbase. rewrite Hbase. reflexivity.
Qed.

Lemma upload_uses_base_name_witness :
  flat_map ingest_call
    (events (upload_document (mkUploadFile (Some "../../etc/passwd") [x41]%byte)
                             (Stub.started (Stub.example [] true)))) =
    [("uploaded_files/passwd", "passwd")] /\
  upload_document (mkUploadFile (Some "docs/") [x41]%byte)
                  (Stub.started (Stub.example [] true)) =
    mkOutcome
      (Ok (mkJSONResponse [("message", "Error parsing uploaded filename.")] 500))
      (Stub.started (Stub.example [] true))
      [EvLog ERROR
         "Error from /uploadDocument endpoint. Ingestion of file: docs/ failed with error: Error parsing uploaded filename."].
Proof.
  split.
  - refine (proj2 (proj2 (proj1 (proj2 (proj2
      (@upload_uses_base_name Stub.env
         (mkUploadFile (Some "../../etc/passwd") [x41]%byte)
         (Stub.started (Stub.example [] true))
         "../../etc/passwd" eq_refl _))) _))
      (Stub.example [] true) [] [("uploaded_files/passwd", [x41]%byte)] tt
      [("uploaded_files/passwd", [x41]%byte)] eq_refl eq_refl eq_refl eq_refl);
      discriminate.
  - refine (proj2 (proj2 (proj2
      (@upload_uses_base_name Stub.env
         (mkUploadFile (Some "docs/") [x41]%byte)
         (Stub.started (Stub.example [] true))
         "docs/" eq_refl _))) eq_refl).
    discriminate.
Defined.

(** ** document_search *)

(** [document_search] returns a list whatever happens: nothing it runs can
    make it raise. *)
Lemma document_search_returns (E : Env) (data : DocumentSearch) (s : State E) :
  exists docs, result (document_search data s) = Ok docs.
Proof.
  unfold_server. cbn.
  destruct (app_example s) as [cls |]; cbn; [| eexists; reflexivity].
  case_world; [| eexists; reflexivity].
  destruct (document_search_attr cls a); cbn; try (eexists; reflexivity).
  case_world; eexists; reflexivity.
Qed.

(** C8: [document_search] never raises.  With the handler object made:
    when the class has a callable [document_search], it is called with the
    content and the number of documents; the list it returns is returned as
    it is, with nothing logged; when it raises, the error is logged and
    the empty list is returned; when the class has no callable
    [document_search], the NotImplementedError is logged and the empty list
    is returned. *)
Theorem document_search_degrades (E : Env) (data : DocumentSearch) (s : State E) :
  (exists docs, result (document_search data s) = Ok docs) /\
  (forall cls obj w1,
      app_example s = Some cls ->
      cls_init cls (world s) = (Ok obj, w1) ->
      match document_search_attr cls obj with
      | Callable f =>
          flat_map search_call (events (document_search data s)) =
            [(search_content data, num_docs data)] /\
          match f (search_content data) (num_docs data) w1 with
          | (Ok docs, _) =>
              result (document_search data s) = Ok docs /\
              flat_map log_record (events (document_search data s)) = []
          | (Raise e, _) =>
              result (document_search data s) = Ok [] /\
              flat_map log_record (events (document_search data s)) =
                [(ERROR,
                  ("Error from /documentSearch endpoint. Error details: "
                   ++ exc_str e)%string)]
          end
      | _ =>
          result (document_search data s) = Ok [] /\
          flat_map search_call (events (document_search data s)) = [] /\
          flat_map log_record (events (document_search data s)) =
            [(ERROR,
              "Error from /documentSearch endpoint. Error details: Example class has not implemented the document_search method.")]
      end).
Proof.
  split; [apply document_search_returns |].
  intros cls obj w1 Hcls Hinit.
  unfold_server. cbn -[String.append].
  rewrite Hcls. cbn -[String.append]. rewrite Hinit. cbn -[String.append].
  destruct (document_search_attr cls obj) as [| | f]; cbn -[String.append];
    try (repeat split; reflexivity).
  destruct (f (search_content data) (num_docs data) w1) as [[docs | e] w2];
    cbn -[String.append]; repeat split; reflexivity.
Qed.

Lemma document_search_degrades_witness :
  (result (document_search (mkDocumentSearch "llama" 4)
             (Stub.started (Stub.example ["document_search"] true))) = Ok [] /\
   flat_map log_record
     (events (document_search (mkDocumentSearch "llama" 4)
                (Stub.started (Stub.example ["document_search"] true)))) =
     [(ERROR, "Error from /documentSearch endpoint. Error details: no collection")]) /\
  result (document_search (mkDocumentSearch "llama" 4)
            (Stub.started (Stub.example [] false))) = Ok [] /\
  result (document_search (mkDocumentSearch "llama" 4)
            (Stub.started (Stub.example [] true))) = Ok ["llama"].
Proof.
  split; [| split].
  - exact (proj2 (proj2 (@document_search_degrades Stub.env
             (mkDocumentSearch "llama" 4)
             (Stub.started (Stub.example ["document_search"] true)))
             (Stub.example ["document_search"] true) tt [] eq_refl eq_refl)).
  - exact (proj1 (proj2 (@document_search_degrades Stub.env
             (mkDocumentSearch "llama" 4)
             (Stub.started (Stub.example [] false)))
             (Stub.example [] false) tt [] eq_refl eq_refl)).
  - exact (proj1 (proj2 (proj2 (@document_search_degrades Stub.env
             (mkDocumentSearch "llama" 4)
             (Stub.started (Stub.example [] true)))
             (Stub.example [] true) tt [] eq_refl eq_refl))).
Defined.

(** ** Message *)

(** The body of [validate_role], as it is written: a value whose lowercase
    form is "user", "assistant" or "system" is returned in lowercase, any
    other raises the ValueError. *)
Lemma validate_role_spec (value : string) :
  (In (lower value) valid_roles -> validate_role value = Ok (lower value)) /\
  (~ In (lower value) valid_roles ->
     validate_role value =
       Raise (ValueError "Role must be one of 'user', 'assistant', or 'system'")).
Proof.
  unfold validate_role. split.
  - intros Hin. apply str_in_In in Hin. now rewrite Hin.
  - intros Hout. destruct (str_in (lower value) valid_roles) eqn:Hin;
      [| reflexivity].
    apply str_in_In in Hin. contradiction.
Qed.

(** C10: the claim does not hold of the module as it is written.  Line 29
    imports [BaseModel] and [Field] only, so the decorator
    [@validator('role')] of line 60 raises NameError while the body of
    [class Message] runs: no message is constructed, for the role "USER"
    as for any other.  The body of [validate_role] does what the claim
    says ("USER" gives "user", "bot" raises the ValueError); it is the
    registration that fails. *)
Theorem message_construction_raises (value text : string) :
  Message_class = Raise (NameError "name 'validator' is not defined") /\
  Message_new value text = Raise (NameError "name 'validator' is not defined") /\
  Message_new "USER" text = Raise (NameError "name 'validator' is not defined") /\
  validate_role "USER" = Ok "user" /\
  validate_role "bot" =
    Raise (ValueError "Role must be one of 'user', 'assistant', or 'system'").
Proof. repeat split. Qed.

(** ** The handler across requests *)

(** What one request does to the handler: [app.example] stays as it is;
    the request constructs no object, or exactly one, of the class bound in
    [app.example] and with the identity next in line, and a handler
    operation, if one runs, runs on that object. *)
Lemma serve_handler_use (E : Env) (r : Request) (s : State E) :
  app_example (state (serve r s)) = app_example s /\
  ((instances_made (events (serve r s)) = [] /\
    instances_used (events (serve r s)) = [] /\
    next_id (state (serve r s)) = next_id s) \/
   (exists cls,
       app_example s = Some cls /\
       instances_made (events (serve r s)) = [(cls_name cls, next_id s)] /\
       next_id (state (serve r s)) = S (next_id s) /\
       (instances_used (events (serve r s)) = [] \/
        instances_used (events (serve r s)) = [next_id s]))).
Proof.
  destruct r as [file | prompt | data]; unfold serve.
  - unfold upload_document, instrumentation_wrapper.
    destruct (no_filename file); [cbn; auto |].
    unfold upload_document_try.
    destruct (basename (filename_str file) =? "")%string; [cbn; auto |].
    unfold_server. cbn -[String.append path_join].
    case_world; [| auto].
    case_world; [| auto].
    destruct (app_example s) as [cls |] eqn:Hcls; cbn -[String.append path_join];
      [| auto].
    case_world; [| auto].
    case_world; (split; [first [reflexivity | assumption] | right; exists cls; auto]).
  - unfold_server. cbn.
    destruct (app_example s) as [cls |] eqn:Hcls; cbn; [| auto].
    case_world.
    + destruct (use_knowledge_base prompt); cbn; case_world;
        try (split; [first [reflexivity | assumption] | right; exists cls; now auto]);
        destruct (isinstance _ _ || isinstance _ _); cbn;
        (split; [first [reflexivity | assumption] | right; exists cls; auto]).
    + destruct (isinstance _ _ || isinstance _ _); cbn; auto.
  - unfold_server. cbn.
    destruct (app_example s) as [cls |] eqn:Hcls; cbn; [| auto].
    case_world; [| auto].
    destruct (document_search_attr cls a); cbn;
      try (split; [first [reflexivity | assumption] | right; exists cls; now auto]).
    case_world; (split; [first [reflexivity | assumption] | right; exists cls; auto]).
Qed.

Lemma bind_run (E : Env) (A B : Type) (m : M E A) (k : A -> M E B) (s : State E) :
  match result (m s) with
  | Ok a =>
      result (bind m k s) = result (k a (state (m s))) /\
      state (bind m k s) = state (k a (state (m s))) /\
      events (bind m k s) = events (m s) ++ events (k a (state (m s)))
  | Raise e =>
      result (bind m k s) = Raise e /\
      state (bind m k s) = state (m s) /\
      events (bind m k s) = events (m s)
  end.
Proof.
  unfold bind. destruct (m s) as [[a | e] s1 evs]; cbn; [| auto].
  destruct (k a s1); cbn; auto.
Qed.

(** *** Identities *)

Lemma StronglySorted_lt_app (l1 l2 : list nat) :
  StronglySorted lt l1 -> StronglySorted lt l2 ->
  (forall x y, In x l1 -> In y l2 -> x < y) ->
  StronglySorted lt (l1 ++ l2).
Proof.
  induction l1 as [| a l1 IH]; intros H1 H2 Hlt; [exact H2 |].
  simpl. inversion H1 as [| ? ? Hs Ha]; subst. constructor.
  - apply IH; [assumption .. |]. intros x y Hx Hy. apply Hlt; [now right | exact Hy].
  - apply Forall_app. split; [exact Ha |].
    apply Forall_forall. intros y Hy. apply Hlt; [now left | exact Hy].
Qed.

Lemma fresh_between_app (a b c : nat) (l1 l2 : list nat) :
  a <= b -> b <= c ->
  fresh_between a b l1 -> fresh_between b c l2 ->
  fresh_between a c (l1 ++ l2).
Proof.
  intros Hab Hbc [Hs1 Hr1] [Hs2 Hr2]. split.
  - apply StronglySorted_lt_app; [assumption .. |].
    intros x y Hx Hy. rewrite Forall_forall in Hr1, Hr2.
    specialize (Hr1 x Hx). specialize (Hr2 y Hy). lia.
  - apply Forall_app. split.
    + eapply Forall_impl; [| exact Hr1]. cbn. intros; lia.
    + eapply Forall_impl; [| exact Hr2]. cbn. intros; lia.
Qed.

Lemma serve_all_cons (E : Env) (r : Request) (rest : list Request) (s : State E) :
  state (serve_all (r :: rest) s) = state (serve_all rest (state (serve r s))) /\
  events (serve_all (r :: rest) s) =
    events (serve r s) ++ events (serve_all rest (state (serve r s))).
Proof.
  cbn [serve_all]. unfold bind, attempt, ret, prepend.
  destruct (serve r s) as [x s1 evs]; cbn.
  destruct (serve_all rest s1) as [[xs | e] s2 evs']; cbn;
    rewrite ?app_nil_r; auto.
Qed.

(** Over any sequence of requests: [app.example] is never replaced, every
    object constructed is of the class bound there, and the handler
    operations run on objects constructed along the way, each on its own. *)
Lemma serve_all_handler_use (E : Env) (reqs : list Request) (s : State E) :
  app_example (state (serve_all reqs s)) = app_example s /\
  next_id s <= next_id (state (serve_all reqs s)) /\
  fresh_between (next_id s) (next_id (state (serve_all reqs s)))
                (instances_used (events (serve_all reqs s))) /\
  incl (instances_used (events (serve_all reqs s)))
       (map snd (instances_made (events (serve_all reqs s)))) /\
  (forall cls, app_example s = Some cls ->
     Forall (fun made => fst made = cls_name cls)
            (instances_made (events (serve_all reqs s)))).
Proof.
  revert s. induction reqs as [| r rest IH]; intros s.
  - cbn. repeat split; try constructor. intros x [].
  - destruct (serve_all_cons r rest s) as [Hs He]. rewrite Hs, He.
    destruct (IH (state (serve r s))) as (Happ & Hle & Hfresh & Hincl & Hcls).
    destruct (serve_handler_use r s) as [Happ1 Hstep].
    unfold instances_used, instances_made in *. rewrite !flat_map_app, map_app.
    rewrite Happ1 in Happ, Hcls.
    assert (Hstep' :
      next_id s <= next_id (state (serve r s)) /\
      fresh_between (next_id s) (next_id (state (serve r s)))
                    (flat_map instance_used (events (serve r s))) /\
      incl (flat_map instance_used (events (serve r s)))
           (map snd (flat_map instance_made (events (serve r s)))) /\
      (forall cls, app_example s = Some cls ->
         Forall (fun made => fst made = cls_name cls)
                (flat_map instance_made (events (serve r s))))).
    { destruct Hstep as [(Hm & Hu & Hn) | (cls & Hc & Hm & Hn & Hu)].
      - rewrite Hm, Hu, Hn. split; [lia |].
        split; [split; constructor |].
        split; [intros x [] |]. intros; constructor.
      - rewrite Hm, Hn. split; [lia |].
        split; [destruct Hu as [-> | ->]; split; repeat constructor; lia |].
        split.
        + destruct Hu as [-> | ->]; intros x Hx; [destruct Hx | exact Hx].
        + intros cls' Hc'. rewrite Hc in Hc'. injection Hc' as <-.
          repeat constructor. }
    destruct Hstep' as (Hle1 & Hfresh1 & Hincl1 & Hcls1).
    split; [exact Happ |].
    split; [lia |].
    split; [eapply fresh_between_app; eassumption |].
    split.
    + apply incl_app; [apply incl_appl | apply incl_appr]; assumption.
    + intros cls Hc. apply Forall_app. split; auto.
Qed.

(** The class a scan binds is one it was offered and that passed the test. *)
Lemma scan_members_listed (E : Env) (members : list (string * ExampleClass E))
    (s : State E) :
  result (scan_members members s) = Ok true ->
  exists name cls,
    In (name, cls) members /\
    qualifies name cls = true /\
    app_example (state (scan_members members s)) = Some cls.
Proof.
  induction members as [| [name cls] rest IH]; [discriminate |].
  cbn [scan_members].
  unfold bind, try_except, construct, set_app_example, ret, raise, prepend,
    set_world.
  destruct (issubset required_methods (cls_dir cls)) eqn:Hsub;
    [destruct (name =? "BaseExample")%string eqn:Hname |]; cbn.
  - destruct (scan_members rest s) as [res st evs]. cbn in IH |- *.
    intros H. destruct (IH H) as (n & c & Hin & Hq & Ha).
    exists n, c. split; [now right | auto].
  - destruct (cls_init cls (world s)) as [[obj | e] w]; cbn; [| discriminate].
    intros _. exists name, cls. split; [now left |].
    unfold qualifies. rewrite Hsub, Hname. auto.
  - destruct (scan_members rest s) as [res st evs]. cbn in IH |- *.
    intros H. destruct (IH H) as (n & c & Hin & Hq & Ha).
    exists n, c. split; [now right | auto].
Qed.

Lemma scan_files_listed (E : Env) (root : string) (files : list (SourceFile E))
    (s : State E) :
  result (scan_files root files s) = Ok true ->
  exists f w members name cls,
    In f files /\
    endswith (file_name f) ".py" = true /\
    fst (exec_module f w) = Ok members /\
    In (name, cls) members /\
    qualifies name cls = true /\
    app_example (state (scan_files root files s)) = Some cls.
Proof.
  revert s. induction files as [| f rest IH]; intros s; [discriminate |].
  cbn [scan_files].
  destruct (endswith (file_name f) ".py") eqn:Hpy; cbn [negb].
  - unfold bind, extern.
    destruct (exec_module f (world s)) as [[members | e] w] eqn:Hex;
      [| discriminate].
    pose proof (scan_members_listed members (set_world s w)) as Hm.
    destruct (scan_members members (set_world s w)) as [[[|] | e] st evs];
      cbn in Hm |- *; [| | discriminate].
    + intros _. destruct (Hm eq_refl) as (name & cls & Hin & Hq & Ha).
      exists f, (world s), members, name, cls. rewrite Hex.
      repeat split; auto; now left.
    + pose proof (IH st) as IH'.
      destruct (scan_files root rest st) as [res st' evs'].
      cbn in IH' |- *. intros H.
      destruct (IH' H) as (f' & w' & ms & name & cls & Hin & Hrest).
      exists f', w', ms, name, cls. split; [now right | exact Hrest].
  - intros H.
    destruct (IH s H) as (f' & w' & ms & name & cls & Hin & Hrest).
    exists f', w', ms, name, cls. split; [now right | exact Hrest].
Qed.

Lemma scan_walk_listed (E : Env) (walk : list (string * list (SourceFile E)))
    (s : State E) :
  result (scan_walk walk s) = Ok true ->
  exists cls,
    found_in walk cls /\
    app_example (state (scan_walk walk s)) = Some cls.
Proof.
  revert s. induction walk as [| [root files] rest IH]; intros s; [discriminate |].
  cbn [scan_walk]. unfold bind.
  pose proof (scan_files_listed root files s) as Hf.
  destruct (scan_files root files s) as [[[|] | e] st evs];
    cbn in Hf |- *; [| | discriminate].
  - intros _.
    destruct (Hf eq_refl) as (f & w & ms & name & cls & Hin & Hpy & Hex & Hm & Hq & Ha).
    exists cls. split; [| exact Ha].
    exists root, files, f, w, ms, name. repeat split; auto; now left.
  - pose proof (IH st) as IH'.
    destruct (scan_walk rest st) as [res st' evs'].
    cbn in IH' |- *. intros H.
    destruct (IH' H) as (cls & Hfound & Ha).
    exists cls. split; [| exact Ha].
    destruct Hfound as (r & fs & f & w & ms & name & Hin & Hrest).
    exists r, fs, f, w, ms, name. split; [now right | exact Hrest].
Qed.

Lemma import_example_listed (E : Env) (walk : list (string * list (SourceFile E)))
    (s : State E) :
  result (import_example walk s) = Ok tt ->
  exists cls,
    found_in walk cls /\
    app_example (state (import_example walk s)) = Some cls.
Proof.
  unfold import_example, bind.
  pose proof (scan_walk_listed walk s) as Hw.
  destruct (scan_walk walk s) as [[[|] | e] st evs];
    cbn in Hw |- *; [| discriminate | discriminate].
  intros _. exact (Hw eq_refl).
Qed.

(** What one request does with the class in [app.example]: it leaves it
    there, constructs at most one object, of that class, and runs its
    handler operation, if any, on an object it constructed itself. *)
Lemma serve_uses_bound_class (E : Env) (r : Request) (s : State E)
    (cls : ExampleClass E) :
  app_example s = Some cls ->
  app_example (state (serve r s)) = Some cls /\
  length (instances_made (events (serve r s))) <= 1 /\
  Forall (fun made => fst made = cls_name cls)
         (instances_made (events (serve r s))) /\
  incl (instances_used (events (serve r s)))
       (map snd (instances_made (events (serve r s)))).
Proof.
  intros Hcls.
  destruct (serve_handler_use r s) as [Happ Hstep].
  split; [now rewrite Happ |].
  destruct Hstep as [(Hm & Hu & _) | (cls' & Hc & Hm & _ & Hu)].
  - rewrite Hm, Hu. cbn. repeat split; [lia | constructor | intros x []].
  - rewrite Hc in Hcls. injection Hcls as ->. rewrite Hm. cbn.
    repeat split; [lia | repeat constructor |].
    destruct Hu as [-> | ->]; intros x Hx; [destruct Hx | exact Hx].
Qed.

(** C1 (amended): what a process holds is one handler class, not one
    handler object.  When startup succeeds it has bound to [app.example] a
    class the walk offered and that passed the test (the three methods in
    its [dir], a name other than "BaseExample"), and no request replaces
    it.  A request constructs at most one object, of that class, and runs
    its handler operation only on an object it constructed itself; with
    the constructor returning, a generation, a search on a class with a
    callable [document_search], and an upload whose file was written each
    construct one object of the class and act on the world by their
    handler operation applied to that object. *)
Theorem handler_class_bound_at_startup (E : Env)
    (walk : list (string * list (SourceFile E))) (reqs : list Request)
    (s : State E) :
  result (import_example walk s) = Ok tt ->
  exists cls,
    app_example (state (import_example walk s)) = Some cls /\
    found_in walk cls /\
    app_example (state (run_process walk reqs s)) = Some cls /\
    (forall r s1,
        app_example s1 = Some cls ->
        app_example (state (serve r s1)) = Some cls /\
        length (instances_made (events (serve r s1))) <= 1 /\
        Forall (fun made => fst made = cls_name cls)
               (instances_made (events (serve r s1))) /\
        incl (instances_used (events (serve r s1)))
             (map snd (instances_made (events (serve r s1))))) /\
    (forall p s1 obj w,
        app_example s1 = Some cls ->
        cls_init cls (world s1) = (Ok obj, w) ->
        (exists id,
            instances_made (events (serve (ReqGenerate p) s1)) =
              [(cls_name cls, id)] /\
            instances_used (events (serve (ReqGenerate p) s1)) = [id]) /\
        world (state (serve (ReqGenerate p) s1)) =
          snd ((if use_knowledge_base p then rag_chain cls else llm_chain cls)
                 obj (last_user_message (messages p))
                 (remove_last_user (messages p)) (llm_settings p) w)) /\
    (forall data s1 obj w f,
        app_example s1 = Some cls ->
        cls_init cls (world s1) = (Ok obj, w) ->
        document_search_attr cls obj = Callable f ->
        (exists id,
            instances_made (events (serve (ReqSearch data) s1)) =
              [(cls_name cls, id)] /\
            instances_used (events (serve (ReqSearch data) s1)) = [id]) /\
        world (state (serve (ReqSearch data) s1)) =
          snd (f (search_content data) (num_docs data) w)) /\
    (forall file name s1 w1 w2 obj w3,
        app_example s1 = Some cls ->
        filename file = Some name -> name <> "" -> basename name <> "" ->
        mkdir E "uploaded_files" (world s1) = (Ok tt, w1) ->
        copyfile E ("uploaded_files/" ++ basename name)%string
                 (file_bytes file) w1 = (Ok tt, w2) ->
        cls_init cls w2 = (Ok obj, w3) ->
        (exists id,
            instances_made (events (serve (ReqUpload file) s1)) =
              [(cls_name cls, id)] /\
            instances_used (events (serve (ReqUpload file) s1)) = [id]) /\
        world (state (serve (ReqUpload file) s1)) =
          snd (ingest_docs cls obj ("uploaded_files/" ++ basename name)%string
                           (basename name) w3)).
Proof.
  intros Hstart.
  destruct (import_example_listed walk s Hstart) as (cls & Hfound & Hcls).
  exists cls.
  split; [exact Hcls |]. split; [exact Hfound |].
  split.
  { pose proof (bind_run (import_example walk) (fun _ => serve_all reqs) s) as Hrun.
    rewrite Hstart in Hrun. destruct Hrun as (_ & Hs & _).
    unfold run_process. rewrite Hs.
    destruct (serve_all_handler_use reqs (state (import_example walk s)))
      as (Happ & _). now rewrite Happ. }
  split; [intros r s1; apply serve_uses_bound_class |].
  split; [| split].
  - intros p s1 obj w Hc Hinit.
    unfold serve. unfold_server. cbn. rewrite Hc. cbn. rewrite Hinit. cbn.
    destruct (use_knowledge_base p); cbn; case_world;
      try (split; [eexists; split; reflexivity | reflexivity]);
      destruct (isinstance _ _ || isinstance _ _); cbn;
      (split; [eexists; split; reflexivity | reflexivity]).
  - intros data s1 obj w f Hc Hinit Hattr.
    unfold serve. unfold_server. cbn. rewrite Hc. cbn. rewrite Hinit. cbn.
    rewrite Hattr. cbn.
    case_world; (split; [eexists; split; reflexivity | reflexivity]).
  - intros file name s1 w1 w2 obj w3 Hc Hf Hne Hbase Hmk Hcp Hinit.
    unfold serve, upload_document, instrumentation_wrapper.
    rewrite (no_filename_false file Hf Hne).
    unfold upload_document_try, filename_str. rewrite Hf.
    rewrite (path_join_uploaded_files _ (basename_no_sep name)).
    apply String.eqb_neq in Hbase. rewrite Hbase.
    unfold_server. cbn -[String.append].
    rewrite Hmk. cbn -[String.append]. rewrite Hcp. cbn -[String.append].
    rewrite Hc. cbn -[String.append]. rewrite Hinit. cbn -[String.append].
    case_world; (split; [eexists; split; reflexivity | reflexivity]).
Qed.

Lemma handler_class_bound_at_startup_witness :
  exists cls,
    app_example (state (import_example
                          (Stub.walk_with_base (Stub.example [] true))
                          Stub.fresh)) = Some cls /\
    cls_name cls = "StubExample" /\
    found_in (Stub.walk_with_base (Stub.example [] true)) cls /\
    app_example (state (run_process
                          (Stub.walk_with_base (Stub.example [] true))
                          [ReqSearch (mkDocumentSearch "llama" 4);
                           ReqGenerate (Stub.prompt true [mkMessage "user" "q"])]
                          Stub.fresh)) = Some cls.
Proof.
  destruct (@handler_class_bound_at_startup Stub.env
              (Stub.walk_with_base (Stub.example [] true))
              [ReqSearch (mkDocumentSearch "llama" 4);
               ReqGenerate (Stub.prompt true [mkMessage "user" "q"])]
              Stub.fresh eq_refl)
    as (cls & H1 & H2 & H3 & _).
  exists cls. split; [exact H1 |].
  split; [cbn in H1; injection H1 as <-; reflexivity |].
  split; [exact H2 | exact H3].
Defined.

(** C1 as stated fails: after startup two requests run their handler
    operations on two objects, neither of them the one startup made. *)
Lemma handler_instance_not_shared :
  instances_made
    (events (run_process (Stub.walk (Stub.example [] true))
               [ReqSearch (mkDocumentSearch "llama" 4);
                ReqGenerate (Stub.prompt true [mkMessage "user" "q"])]
               Stub.fresh)) =
    [("StubExample", 0); ("StubExample", 1); ("StubExample", 2)] /\
  instances_used
    (events (run_process (Stub.walk (Stub.example [] true))
               [ReqSearch (mkDocumentSearch "llama" 4);
                ReqGenerate (Stub.prompt true [mkMessage "user" "q"])]
               Stub.fresh)) = [1; 2] /\
  ~ (exists id,
        Forall (fun used => used = id)
          (instances_used
             (events (run_process (Stub.walk (Stub.example [] true))
                        [ReqSearch (mkDocumentSearch "llama" 4);
                         ReqGenerate (Stub.prompt true [mkMessage "user" "q"])]
                        Stub.fresh)))).
Proof.
  split; [reflexivity | split; [reflexivity |]].
  intros [id Hall]. cbn in Hall.
  inversion Hall as [| ? ? H1 Hrest]; subst.
  inversion Hrest as [| ? ? H2 _]; subst. discriminate.
Qed.

(** * Further properties of the code *)

(** ** The query and the history, for any history *)

Lemma forall_not_user (h : list Message) :
  Forall (fun m => is_user m = false) h <->
  (forall m, In m h -> role m <> "user").
Proof.
  rewrite Forall_forall. split; intros H m Hin.
  - apply is_user_false. now apply H.
  - apply is_user_false. now apply H.
Qed.

(** X1: wherever the last user message stands in the request, the chain is
    called with its content as the query and with the other messages, in
    their order, as the history. *)
Theorem generate_query_from_any_position (E : Env) (p : Prompt) (s : State E)
    (pre post : list Message) (u : Message) :
  messages p = pre ++ u :: post ->
  role u = "user" ->
  (forall m, In m post -> role m <> "user") ->
  Forall (fun k => call_query k = Some (content u) /\
                   call_history k = pre ++ post)
         (chain_calls (events (generate_answer p s))) /\
  (forall example,
      result (app_example_call s) = Ok example ->
      length (chain_calls (events (generate_answer p s))) = 1).
Proof.
  intros Hp Hu Hpost. apply is_user_true in Hu. apply forall_not_user in Hpost.
  rewrite generate_answer_chain_calls. split.
  - destruct (result (app_example_call s)); constructor; [| constructor]. cbn.
    rewrite Hp.
    now rewrite last_user_message_split, remove_last_user_split.
  - intros example Hex. now rewrite Hex.
Qed.

Lemma generate_query_from_any_position_witness :
  Forall (fun k => call_query k = Some "q" /\
                   call_history k = [mkMessage "system" "be brief";
                                     mkMessage "assistant" "a"])
         (chain_calls (events (generate_answer
            (Stub.prompt false [mkMessage "system" "be brief";
                                mkMessage "user" "q";
                                mkMessage "assistant" "a"])
            (Stub.started (Stub.example [] true))))).
Proof.
  apply (@generate_query_from_any_position Stub.env
           (Stub.prompt false [mkMessage "system" "be brief";
                               mkMessage "user" "q";
                               mkMessage "assistant" "a"])
           (Stub.started (Stub.example [] true))
           [mkMessage "system" "be brief"] [mkMessage "assistant" "a"]
           (mkMessage "user" "q")).
  - reflexivity.
  - reflexivity.
  - intros m [Hm | []]. subst m. discriminate.
Defined.

Lemma existsb_is_user_false (h : list Message) :
  Forall (fun m => is_user m = false) h -> existsb is_user h = false.
Proof.
  induction 1 as [| a l Ha _ IH]; simpl; [reflexivity |].
  now rewrite Ha, IH.
Qed.

Lemma filter_is_user_none (h : list Message) :
  Forall (fun m => is_user m = false) h -> filter is_user h = [].
Proof.
  induction 1 as [| a l Ha _ IH]; simpl; [reflexivity |].
  now rewrite Ha.
Qed.

(** X2: the loop of [generate_answer] takes out at most one message and
    never a message of another role: the messages that are not user
    messages stay, in their order; the history is shorter by one exactly
    when it holds a user message; and one user message fewer is left. *)
Theorem remove_last_user_keeps_others (h : list Message) :
  filter (fun m => negb (is_user m)) (remove_last_user h) =
    filter (fun m => negb (is_user m)) h /\
  length (remove_last_user h) =
    length h - (if existsb is_user h then 1 else 0) /\
  length (filter is_user (remove_last_user h)) =
    length (filter is_user h) - 1.
Proof.
  destruct (last_user_split h) as [Hno | (pre & u & post & Heq & Hu & Hpost)].
  - rewrite remove_last_user_none by assumption.
    rewrite existsb_is_user_false, filter_is_user_none by assumption.
    simpl. repeat split; lia.
  - subst h. rewrite remove_last_user_split by assumption.
    rewrite !filter_app, !length_app, existsb_app. simpl.
    rewrite Hu, orb_true_r. simpl.
    rewrite (filter_is_user_none Hpost). simpl.
    repeat split; lia.
Qed.

(** X3: the query is [None] exactly when the request holds no user
    message, and exactly then the history is passed on as it came. *)
Theorem query_none_iff_history_unchanged (h : list Message) :
  (last_user_message h = None <-> (forall m, In m h -> role m <> "user")) /\
  (remove_last_user h = h <-> (forall m, In m h -> role m <> "user")).
Proof.
  rewrite <- forall_not_user.
  destruct (last_user_split h) as [Hno | (pre & u & post & Heq & Hu & Hpost)].
  - split; split; intros _; auto.
    + now apply last_user_message_none.
    + now apply remove_last_user_none.
  - assert (Hnot : ~ Forall (fun m => is_user m = false) h).
    { intros Hall. rewrite Forall_forall in Hall.
      assert (Hin : In u h) by (subst h; apply in_elt).
      specialize (Hall u Hin). congruence. }
    split; split; intros H; try contradiction; exfalso.
    + subst h. rewrite last_user_message_split in H by assumption. discriminate.
    + apply (f_equal (@length Message)) in H.
      subst h. rewrite remove_last_user_split in H by assumption.
      rewrite !length_app in H. simpl in H. lia.
Qed.

(** ** The validator of the role *)

(** X4: whenever [validate_role], the function as it is written, returns,
    what it returns is one of the three roles and the lowercase form of
    its argument, and applied to that it returns it again: validating a
    validated role changes nothing. *)
Theorem validate_role_idempotent (value r : string) :
  validate_role value = Ok r ->
  In r valid_roles /\
  r = lower value /\
  validate_role r = Ok r.
Proof.
  unfold validate_role at 1.
  destruct (str_in (lower value) valid_roles) eqn:Hin; cbn; [| discriminate].
  intros Hr. injection Hr as <-.
  apply str_in_In in Hin. repeat split; [exact Hin |].
  simpl in Hin. destruct Hin as [H | [H | [H | []]]]; rewrite <- H; reflexivity.
Qed.

Lemma validate_role_idempotent_witness :
  In "system" valid_roles /\ validate_role "system" = Ok "system".
Proof.
  destruct (@validate_role_idempotent "SyStem" "system" eq_refl)
    as (H1 & _ & H3).
  split; [exact H1 | exact H3].
Defined.

(** ** Base names and joined paths *)

Lemma endswith_sep_has_sep (p : string) :
  endswith_sep p = true -> has_sep p = true.
Proof.
  induction p as [| a p IH]; simpl; [discriminate |].
  destruct p as [| b p].
  - intros ->. reflexivity.
  - intros H. rewrite (IH H). apply orb_true_r.
Qed.

Lemma basename_without_sep (p : string) :
  has_sep p = false -> basename p = p.
Proof.
  destruct p as [| a p]; [reflexivity |].
  rewrite basename_cons. simpl.
  intros H. apply orb_false_elim in H as [Ha Hp]. now rewrite Hp, Ha.
Qed.

Lemma has_sep_app_sep (d b : string) :
  has_sep (d ++ String sep b) = true.
Proof.
  induction d as [| a d IH]; simpl.
  - reflexivity.
  - rewrite IH. apply orb_true_r.
Qed.

Lemma basename_app_sep (d b : string) :
  has_sep b = false -> basename (d ++ String sep b) = b.
Proof.
  intros Hb. induction d as [| a d IH]; simpl.
  - rewrite basename_cons, Hb. reflexivity.
  - rewrite basename_cons, has_sep_app_sep. exact IH.
Qed.

Lemma endswith_sep_split (a : string) :
  endswith_sep a = true -> exists a', a = (a' ++ String sep "")%string.
Proof.
  induction a as [| c a IH]; simpl; [discriminate |].
  destruct a as [| c' a].
  - intros H. apply Ascii.eqb_eq in H. subst c. exists "". reflexivity.
  - intros H. destruct (IH H) as [a' Ha']. exists (String c a').
    simpl. now rewrite <- Ha'.
Qed.

Lemma string_app_assoc (a b c : string) :
  ((a ++ b) ++ c = a ++ (b ++ c))%string.
Proof.
  induction a as [| x a IH]; simpl; [reflexivity | now rewrite IH].
Qed.

(** The base name of a path is empty exactly when the path is empty or ends
    with a separator. *)
Lemma basename_empty_iff (p : string) :
  basename p = "" <-> p = "" \/ endswith_sep p = true.
Proof.
  induction p as [| a p IH].
  - split; [now left | reflexivity].
  - rewrite basename_cons.
    destruct (has_sep p) eqn:Hp.
    + rewrite IH. destruct p as [| b p]; [discriminate |].
      split.
      * intros [H | H]; [discriminate | right; exact H].
      * intros [H | H]; [discriminate | right; exact H].
    + destruct (Ascii.eqb a sep) eqn:Ha.
      * destruct p as [| b p].
        -- split; [intros _; right; exact Ha | reflexivity].
        -- split; [discriminate |].
           intros [H | H]; [discriminate |].
           change (endswith_sep (String b p) = true) in H.
           apply endswith_sep_has_sep in H. congruence.
      * split; [discriminate |].
        intros [H | H]; [discriminate |].
        destruct p as [| b p]; [simpl in H; congruence |].
        change (endswith_sep (String b p) = true) in H.
        apply endswith_sep_has_sep in H. congruence.
Qed.

(** X6: taking the base name twice gives the base name, and a name without
    a separator is its own base name: a plain filename is stored under the
    name it was uploaded with. *)
Theorem basename_idempotent (p : string) :
  basename (basename p) = basename p /\
  (has_sep p = false -> basename p = p).
Proof.
  split.
  - apply basename_without_sep, basename_no_sep.
  - apply basename_without_sep.
Qed.

(** X7: joining a directory and a name without a separator, then taking
    the base name, gives the name back: the file [upload_document] writes
    lies directly in the directory it joined the name to. *)
Theorem basename_path_join (a b : string) :
  has_sep b = false ->
  basename (path_join a b) = b /\
  (exists dir, path_join a b = (dir ++ b)%string /\
               (dir = "" \/ endswith_sep dir = true)).
Proof.
  intros Hb.
  assert (Hstart : startswith_sep b = false).
  { destruct b as [| c b]; [reflexivity |].
    simpl in Hb. now apply orb_false_elim in Hb as [Hc _]. }
  unfold path_join. rewrite Hstart.
  destruct (a =? "")%string eqn:Ha.
  - apply String.eqb_eq in Ha. subst a. simpl.
    split; [now apply basename_without_sep |].
    exists "". split; [reflexivity | now left].
  - simpl. destruct (endswith_sep a) eqn:Hend.
    + destruct (endswith_sep_split a Hend) as [a' ->].
      rewrite string_app_assoc. simpl.
      split; [now apply basename_app_sep |].
      exists (a' ++ String sep "")%string. split.
      * now rewrite string_app_assoc.
      * right. exact Hend.
    + split; [now apply basename_app_sep |].
      exists (a ++ String sep "")%string. split.
      * now rewrite string_app_assoc.
      * right. clear. induction a as [| c a IH]; [reflexivity |].
        simpl. destruct a; [simpl in *; exact IH | exact IH].
Qed.

Lemma basename_path_join_witness :
  basename (path_join "uploaded_files" (basename "../../etc/passwd")) = "passwd".
Proof.
  apply (basename_path_join "uploaded_files" (basename "../../etc/passwd")).
  reflexivity.
Defined.

(** ** upload_document, step by step *)

(** The body of [upload_document] for a filename with a base name. *)
Lemma upload_document_named (E : Env) (file : UploadFile) (s : State E)
    (name : string) :
  filename file = Some name ->
  name <> "" ->
  basename name <> "" ->
  upload_document file s =
    try_except
      (extern (EvMkdir "uploaded_files") (mkdir E "uploaded_files") ;;
       extern (EvWrite ("uploaded_files/" ++ basename name) (file_bytes file))
              (copyfile E ("uploaded_files/" ++ basename name) (file_bytes file)) ;;
       example <- app_example_call ;;
       call_ingest_docs example ("uploaded_files/" ++ basename name) (basename name) ;;
       ret (mkJSONResponse [("message", "File uploaded successfully")] 200))
      (fun e =>
         logger ERROR
           ("Error from /uploadDocument endpoint. Ingestion of file: "
            ++ name ++ " failed with error: " ++ exc_str e) ;;
         ret (mkJSONResponse [("message", exc_str e)] 500))
      s.
Proof.
  intros Hf Hne Hbase.
  unfold upload_document, instrumentation_wrapper.
  rewrite (no_filename_false file Hf Hne).
  unfold upload_document_try, filename_str. rewrite Hf.
  rewrite (path_join_uploaded_files _ (basename_no_sep name)).
  apply String.eqb_neq in Hbase. rewrite Hbase. reflexivity.
Qed.

Lemma upload_document_empty_base (E : Env) (file : UploadFile) (s : State E)
    (name : string) :
  filename file = Some name ->
  name <> "" ->
  basename name = "" ->
  upload_document file s =
    mkOutcome
      (Ok (mkJSONResponse
             [("message", "Error parsing uploaded filename.")] 500))
      s
      [EvLog ERROR
         ("Error from /uploadDocument endpoint. Ingestion of file: "
          ++ name
          ++ " failed with error: Error parsing uploaded filename.")].
Proof.
  intros Hf Hne Hbase.
  unfold upload_document, instrumentation_wrapper.
  rewrite (no_filename_false file Hf Hne).
  unfold upload_document_try, filename_str. rewrite Hf, Hbase. reflexivity.
Qed.

(** X5: the uploads answered with "Error parsing uploaded filename." before
    anything is done are exactly those whose filename ends with a
    separator: for every other non-empty filename the first thing the
    request does is make the upload directory. *)
Theorem upload_rejects_trailing_separator (E : Env) (file : UploadFile)
    (s : State E) (name : string) :
  filename file = Some name ->
  name <> "" ->
  (endswith_sep name = true <->
   upload_document file s =
     mkOutcome
       (Ok (mkJSONResponse
              [("message", "Error parsing uploaded filename.")] 500))
       s
       [EvLog ERROR
          ("Error from /uploadDocument endpoint. Ingestion of file: "
           ++ name
           ++ " failed with error: Error parsing uploaded filename.")]) /\
  (endswith_sep name = false ->
   exists evs,
     events (upload_document file s) = EvMkdir "uploaded_files" :: evs).
Proof.
  intros Hf Hne.
  assert (Hstart : endswith_sep name = false ->
            exists evs,
              events (upload_document file s) = EvMkdir "uploaded_files" :: evs).
  { intros Hend.
    assert (Hbase : basename name <> "").
    { intros Hb. apply basename_empty_iff in Hb as [Hb | Hb]; congruence. }
    rewrite (upload_document_named file s Hf Hne Hbase).
    unfold_server. cbn -[String.append].
    case_world; [| eexists; reflexivity].
    case_world; [| eexists; reflexivity].
    destruct (app_example s) as [cls |]; cbn -[String.append];
      [| eexists; reflexivity].
    case_world; [| eexists; reflexivity].
    case_world; eexists; reflexivity. }
  split; [| exact Hstart].
  split.
  - intros Hend. apply upload_document_empty_base; try assumption.
    apply basename_empty_iff. now right.
  - intros Hout. destruct (endswith_sep name) eqn:Hend; [reflexivity |].
    destruct (Hstart eq_refl) as [evs Hevs].
    rewrite Hout in Hevs. cbn in Hevs. discriminate.
Qed.

Lemma upload_rejects_trailing_separator_witness :
  upload_document (mkUploadFile (Some "archive/2023/") [x25]%byte)
                  (Stub.started (Stub.example [] true)) =
    mkOutcome
      (Ok (mkJSONResponse
             [("message", "Error parsing uploaded filename.")] 500))
      (Stub.started (Stub.example [] true))
      [EvLog ERROR
         "Error from /uploadDocument endpoint. Ingestion of file: archive/2023/ failed with error: Error parsing uploaded filename."].
Proof.
  refine (proj1 (proj1 (@upload_rejects_trailing_separator Stub.env
            (mkUploadFile (Some "archive/2023/") [x25]%byte)
            (Stub.started (Stub.example [] true))
            "archive/2023/" eq_refl _)) eq_refl).
  discriminate.
Defined.

(** X8: an upload that meets no error makes the directory, writes the
    bytes to uploaded_files/<base name>, constructs one handler object and
    calls [ingest_docs] on it with that path and the base name, in this
    order, and answers with status 200 and "File uploaded successfully";
    nothing is logged. *)
Theorem upload_success (E : Env) (file : UploadFile) (s : State E)
    (name : string) (cls : ExampleClass E) (obj : Obj E)
    (w1 w2 w3 w4 : World E) :
  filename file = Some name ->
  name <> "" ->
  basename name <> "" ->
  mkdir E "uploaded_files" (world s) = (Ok tt, w1) ->
  copyfile E ("uploaded_files/" ++ basename name)%string (file_bytes file) w1
    = (Ok tt, w2) ->
  app_example s = Some cls ->
  cls_init cls w2 = (Ok obj, w3) ->
  ingest_docs cls obj ("uploaded_files/" ++ basename name)%string
              (basename name) w3 = (Ok tt, w4) ->
  upload_document file s =
    mkOutcome
      (Ok (mkJSONResponse [("message", "File uploaded successfully")] 200))
      (mkState (Some cls) (S (next_id s)) w4)
      [EvMkdir "uploaded_files";
       EvWrite ("uploaded_files/" ++ basename name)%string (file_bytes file);
       EvNew (cls_name cls) (next_id s);
       EvIngest (next_id s) ("uploaded_files/" ++ basename name)%string
                (basename name)].
Proof.
  intros Hf Hne Hbase Hmk Hcp Hcls Hinit Hing.
  rewrite (upload_document_named file s Hf Hne Hbase).
  unfold_server. cbn -[String.append].
  rewrite Hmk. cbn -[String.append]. rewrite Hcp. cbn -[String.append].
  rewrite Hcls. cbn -[String.append]. rewrite Hinit. cbn -[String.append].
  rewrite Hing. cbn -[String.append]. rewrite ?Hcls. reflexivity.
Qed.

Lemma upload_success_witness :
  upload_document (mkUploadFile (Some "docs/report.pdf") [x25; x50]%byte)
                  (Stub.started (Stub.example [] true)) =
    mkOutcome
      (Ok (mkJSONResponse [("message", "File uploaded successfully")] 200))
      (@mkState Stub.env (Some (Stub.example [] true)) 2
                [("uploaded_files/report.pdf", [x25; x50]%byte)])
      [EvMkdir "uploaded_files";
       EvWrite "uploaded_files/report.pdf" [x25; x50]%byte;
       EvNew "StubExample" 1;
       EvIngest 1 "uploaded_files/report.pdf" "report.pdf"].
Proof.
  refine (@upload_success Stub.env
            (mkUploadFile (Some "docs/report.pdf") [x25; x50]%byte)
            (Stub.started (Stub.example [] true))
            "docs/report.pdf" (Stub.example [] true) tt
            [] [("uploaded_files/report.pdf", [x25; x50]%byte)]
            [("uploaded_files/report.pdf", [x25; x50]%byte)]
            [("uploaded_files/report.pdf", [x25; x50]%byte)]
            eq_refl _ _ eq_refl eq_refl eq_refl eq_refl eq_refl);
    discriminate.
Defined.

(** The body of the [try] of [upload_document] logs nothing, and when it
    returns it has written the file once and called [ingest_docs] once. *)
Lemma upload_document_try_run (E : Env) (file : UploadFile) (s : State E)
    (name : string) :
  filename file = Some name ->
  flat_map log_record (events (upload_document_try file s)) = [] /\
  (forall r0,
      result (upload_document_try file s) = Ok r0 ->
      r0 = mkJSONResponse [("message", "File uploaded successfully")] 200 /\
      flat_map disk_write (events (upload_document_try file s)) =
        [("uploaded_files/" ++ basename name)%string] /\
      flat_map ingest_call (events (upload_document_try file s)) =
        [(("uploaded_files/" ++ basename name)%string, basename name)]).
Proof.
  intros Hf. unfold upload_document_try, filename_str. rewrite Hf.
  rewrite (path_join_uploaded_files _ (basename_no_sep name)).
  destruct (basename name =? "")%string;
    [cbn; split; [reflexivity | discriminate] |].
  unfold_server. cbn -[String.append].
  case_world; [| split; [reflexivity | discriminate]].
  case_world; [| split; [reflexivity | discriminate]].
  destruct (app_example s) as [cls |]; cbn -[String.append];
    [| split; [reflexivity | discriminate]].
  case_world; [| split; [reflexivity | discriminate]].
  case_world; [| split; [reflexivity | discriminate]].
  split; [reflexivity |].
  intros r0 Hr. injection Hr as <-. repeat split.
Qed.

(** X9: [upload_document] never raises and answers with status 200 or
    500.  For an upload with a filename, status 200 means the body of the
    [try] returned that response, having written the file once and called
    [ingest_docs] once on it, and nothing was logged; status 500 means the
    body of the [try] raised an exception [e], the message of the response
    is [str(e)], and exactly one error was logged, with the filename as it
    was sent and [str(e)]. *)
Theorem upload_status_sound (E : Env) (file : UploadFile) (s : State E) :
  exists r,
    result (upload_document file s) = Ok r /\
    (json_status_code r = 200%Z \/ json_status_code r = 500%Z) /\
    (forall name,
        filename file = Some name -> name <> "" ->
        (json_status_code r = 200%Z ->
           result (upload_document_try file s) = Ok r /\
           flat_map disk_write (events (upload_document file s)) =
             [("uploaded_files/" ++ basename name)%string] /\
           flat_map ingest_call (events (upload_document file s)) =
             [(("uploaded_files/" ++ basename name)%string, basename name)] /\
           flat_map log_record (events (upload_document file s)) = []) /\
        (json_status_code r = 500%Z ->
           exists e,
             result (upload_document_try file s) = Raise e /\
             json_content r = [("message", exc_str e)] /\
             flat_map log_record (events (upload_document file s)) =
               [(ERROR,
                 ("Error from /uploadDocument endpoint. Ingestion of file: "
                  ++ name ++ " failed with error: " ++ exc_str e)%string)])).
Proof.
  destruct (no_filename file) eqn:Hno.
  - unfold upload_document, instrumentation_wrapper. rewrite Hno.
    eexists. split; [reflexivity |]. split; [now left |].
    intros name Hf Hne. rewrite (no_filename_false file Hf Hne) in Hno.
    discriminate.
  - assert (Hname : exists name, filename file = Some name /\ name <> "").
    { unfold no_filename in Hno. destruct (filename file) as [n |]; [| discriminate].
      exists n. split; [reflexivity | now apply String.eqb_neq]. }
    destruct Hname as (name & Hf & Hne).
    destruct (upload_document_try_run file s Hf) as [Hlog Hok].
    unfold upload_document, instrumentation_wrapper. rewrite Hno.
    unfold try_except, filename_str. rewrite Hf.
    destruct (upload_document_try file s) as [[r0 | e] s1 evs];
      cbn [result events] in Hlog, Hok |- *.
    + destruct (Hok r0 eq_refl) as (-> & Hd & Hi).
      eexists. split; [reflexivity |]. split; [now left |].
      intros name' Hf' _. rewrite ?Hf in Hf'. injection Hf' as <-.
      split; [intros _; auto | discriminate].
    + unfold bind, logger, ret, prepend. cbn -[String.append].
      eexists. split; [reflexivity |]. split; [now right |].
      intros name' Hf' _. rewrite ?Hf in Hf'. injection Hf' as <-.
      split; [discriminate |]. intros _. exists e.
      split; [reflexivity |]. split; [reflexivity |].
      rewrite flat_map_app, Hlog. reflexivity.
Qed.

(** X10: when [ingest_docs] raises, the answer has status 500 and the
    error's message, the error is logged with the filename as it was sent
    (not its base name), and the file stays written: the run ends with the
    ingestion call and the log record, nothing is undone. *)
Theorem upload_ingest_failure (E : Env) (file : UploadFile) (s : State E)
    (name : string) (cls : ExampleClass E) (obj : Obj E) (e : Exception)
    (w1 w2 w3 w4 : World E) :
  filename file = Some name ->
  name <> "" ->
  basename name <> "" ->
  mkdir E "uploaded_files" (world s) = (Ok tt, w1) ->
  copyfile E ("uploaded_files/" ++ basename name)%string (file_bytes file) w1
    = (Ok tt, w2) ->
  app_example s = Some cls ->
  cls_init cls w2 = (Ok obj, w3) ->
  ingest_docs cls obj ("uploaded_files/" ++ basename name)%string
              (basename name) w3 = (Raise e, w4) ->
  upload_document file s =
    mkOutcome
      (Ok (mkJSONResponse [("message", exc_str e)] 500))
      (mkState (Some cls) (S (next_id s)) w4)
      [EvMkdir "uploaded_files";
       EvWrite ("uploaded_files/" ++ basename name)%string (file_bytes file);
       EvNew (cls_name cls) (next_id s);
       EvIngest (next_id s) ("uploaded_files/" ++ basename name)%string
                (basename name);
       EvLog ERROR
         ("Error from /uploadDocument endpoint. Ingestion of file: "
          ++ name ++ " failed with error: " ++ exc_str e)].
Proof.
  intros Hf Hne Hbase Hmk Hcp Hcls Hinit Hing.
  rewrite (upload_document_named file s Hf Hne Hbase).
  unfold_server. cbn -[String.append].
  rewrite Hmk. cbn -[String.append]. rewrite Hcp. cbn -[String.append].
  rewrite Hcls. cbn -[String.append]. rewrite Hinit. cbn -[String.append].
  rewrite Hing. cbn -[String.append]. rewrite ?Hcls. reflexivity.
Qed.

Lemma upload_ingest_failure_witness :
  upload_document (mkUploadFile (Some "docs/report.pdf") [x25]%byte)
                  (Stub.started (Stub.example ["ingest_docs"] true)) =
    mkOutcome
      (Ok (mkJSONResponse [("message", "unreadable")] 500))
      (@mkState Stub.env (Some (Stub.example ["ingest_docs"] true)) 2
                [("uploaded_files/report.pdf", [x25]%byte)])
      [EvMkdir "uploaded_files";
       EvWrite "uploaded_files/report.pdf" [x25]%byte;
       EvNew "StubExample" 1;
       EvIngest 1 "uploaded_files/report.pdf" "report.pdf";
       EvLog ERROR
         "Error from /uploadDocument endpoint. Ingestion of file: docs/report.pdf failed with error: unreadable"].
Proof.
  refine (@upload_ingest_failure Stub.env
            (mkUploadFile (Some "docs/report.pdf") [x25]%byte)
            (Stub.started (Stub.example ["ingest_docs"] true))
            "docs/report.pdf" (Stub.example ["ingest_docs"] true) tt
            (ValueError "unreadable")
            [] [("uploaded_files/report.pdf", [x25]%byte)]
            [("uploaded_files/report.pdf", [x25]%byte)]
            [("uploaded_files/report.pdf", [x25]%byte)]
            eq_refl _ _ eq_refl eq_refl eq_refl eq_refl eq_refl);
    discriminate.
Defined.

(** X11: when making the directory raises, nothing is written; when
    writing the file raises, the write was the last call out; in both
    cases no handler object is constructed, [ingest_docs] is not called,
    and the answer has status 500 and the error's message. *)
Theorem upload_disk_failure (E : Env) (file : UploadFile) (s : State E)
    (name : string) :
  filename file = Some name ->
  name <> "" ->
  basename name <> "" ->
  (forall e w1,
      mkdir E "uploaded_files" (world s) = (Raise e, w1) ->
      upload_document file s =
        mkOutcome
          (Ok (mkJSONResponse [("message", exc_str e)] 500))
          (mkState (app_example s) (next_id s) w1)
          [EvMkdir "uploaded_files";
           EvLog ERROR
             ("Error from /uploadDocument endpoint. Ingestion of file: "
              ++ name ++ " failed with error: " ++ exc_str e)]) /\
  (forall e w1 w2,
      mkdir E "uploaded_files" (world s) = (Ok tt, w1) ->
      copyfile E ("uploaded_files/" ++ basename name)%string (file_bytes file) w1
        = (Raise e, w2) ->
      upload_document file s =
        mkOutcome
          (Ok (mkJSONResponse [("message", exc_str e)] 500))
          (mkState (app_example s) (next_id s) w2)
          [EvMkdir "uploaded_files";
           EvWrite ("uploaded_files/" ++ basename name)%string (file_bytes file);
           EvLog ERROR
             ("Error from /uploadDocument endpoint. Ingestion of file: "
              ++ name ++ " failed with error: " ++ exc_str e)]).
Proof.
  intros Hf Hne Hbase.
  rewrite (upload_document_named file s Hf Hne Hbase).
  split.
  - intros e w1 Hmk. unfold_server. cbn -[String.append].
    rewrite Hmk. reflexivity.
  - intros e w1 w2 Hmk Hcp. unfold_server. cbn -[String.append].
    rewrite Hmk. cbn -[String.append]. rewrite Hcp. reflexivity.
Qed.

Lemma upload_disk_failure_witness :
  upload_document (mkUploadFile (Some "report.pdf") [x25]%byte)
                  (@mkState Stub.read_only None 0 tt) =
    mkOutcome
      (Ok (mkJSONResponse [("message", "Permission denied")] 500))
      (@mkState Stub.read_only None 0 tt)
      [EvMkdir "uploaded_files";
       EvLog ERROR
         "Error from /uploadDocument endpoint. Ingestion of file: report.pdf failed with error: Permission denied"] /\
  upload_document (mkUploadFile (Some "report.pdf") [x25]%byte)
                  (@mkState Stub.full_disk None 0 tt) =
    mkOutcome
      (Ok (mkJSONResponse [("message", "No space left on device")] 500))
      (@mkState Stub.full_disk None 0 tt)
      [EvMkdir "uploaded_files";
       EvWrite "uploaded_files/report.pdf" [x25]%byte;
       EvLog ERROR
         "Error from /uploadDocument endpoint. Ingestion of file: report.pdf failed with error: No space left on device"].
Proof.
  split.
  - refine (proj1 (@upload_disk_failure Stub.read_only
              (mkUploadFile (Some "report.pdf") [x25]%byte)
              (@mkState Stub.read_only None 0 tt) "report.pdf" eq_refl _ _)
              (mkException ["PermissionError"; "OSError"] "Permission denied")
              tt eq_refl);
      discriminate.
  - refine (proj2 (@upload_disk_failure Stub.full_disk
              (mkUploadFile (Some "report.pdf") [x25]%byte)
              (@mkState Stub.full_disk None 0 tt) "report.pdf" eq_refl _ _)
              (mkException ["OSError"] "No space left on device")
              tt tt eq_refl eq_refl);
      discriminate.
Defined.

(** ** Requests without a handler *)

(** X12: while [app.example] is not set, each endpoint answers from its
    [except] branch: [generate_answer] with the chain-server sentence,
    [document_search] with the empty list, and [upload_document] with
    status 500, after the file has been written; each logs the
    AttributeError and none constructs an object. *)
Theorem endpoints_without_handler (E : Env) (s : State E) :
  app_example s = None ->
  (forall p,
      generate_answer p s =
        mkOutcome
          (Ok (StreamingResponse_new (Iter [chain_server_message])
                                     "text/event-stream"))
          s
          [EvLog ERROR
             "Error from /generate endpoint. Error details: 'FastAPI' object has no attribute 'example'"]) /\
  (forall data,
      document_search data s =
        mkOutcome (Ok []) s
          [EvLog ERROR
             "Error from /documentSearch endpoint. Error details: 'FastAPI' object has no attribute 'example'"]) /\
  (forall file name w1 w2,
      filename file = Some name -> name <> "" -> basename name <> "" ->
      mkdir E "uploaded_files" (world s) = (Ok tt, w1) ->
      copyfile E ("uploaded_files/" ++ basename name)%string (file_bytes file) w1
        = (Ok tt, w2) ->
      upload_document file s =
        mkOutcome
          (Ok (mkJSONResponse
                 [("message", "'FastAPI' object has no attribute 'example'")] 500))
          (mkState None (next_id s) w2)
          [EvMkdir "uploaded_files";
           EvWrite ("uploaded_files/" ++ basename name)%string (file_bytes file);
           EvLog ERROR
             ("Error from /uploadDocument endpoint. Ingestion of file: "
              ++ name
              ++ " failed with error: 'FastAPI' object has no attribute 'example'")]).
Proof.
  intros Hnone. split; [| split].
  - intros p. unfold_server. cbn. rewrite Hnone. reflexivity.
  - intros data. unfold_server. cbn. rewrite Hnone. reflexivity.
  - intros file name w1 w2 Hf Hne Hbase Hmk Hcp.
    rewrite (upload_document_named file s Hf Hne Hbase).
    unfold_server. cbn -[String.append].
    rewrite Hmk. cbn -[String.append]. rewrite Hcp. cbn -[String.append].
    rewrite Hnone. reflexivity.
Qed.

Lemma endpoints_without_handler_witness :
  document_search (mkDocumentSearch "llama" 4) Stub.fresh =
    mkOutcome (Ok []) Stub.fresh
      [EvLog ERROR
         "Error from /documentSearch endpoint. Error details: 'FastAPI' object has no attribute 'example'"].
Proof.
  apply (proj1 (proj2 (@endpoints_without_handler Stub.env Stub.fresh eq_refl))).
Defined.

(** ** What every request gets, and what no request does *)

Lemma upload_document_status (E : Env) (file : UploadFile) (s : State E) :
  exists r,
    result (upload_document file s) = Ok r /\
    (json_status_code r = 200%Z \/ json_status_code r = 500%Z).
Proof.
  unfold upload_document, instrumentation_wrapper.
  destruct (no_filename file); [eexists; split; [reflexivity | now left] |].
  unfold upload_document_try.
  destruct (basename (filename_str file) =? "")%string;
    [eexists; split; [reflexivity | now right] |].
  unfold_server. cbn -[String.append path_join].
  case_world; [| eexists; split; [reflexivity | now right]].
  case_world; [| eexists; split; [reflexivity | now right]].
  destruct (app_example s) as [cls |]; cbn -[String.append path_join];
    [| eexists; split; [reflexivity | now right]].
  case_world; [| eexists; split; [reflexivity | now right]].
  case_world; eexists; (split; [reflexivity | auto]).
Qed.

(** X13: no exception leaves an endpoint: every request is answered by
    the endpoint itself, an upload with status 200 or 500, a generation
    with a stream of status 200, a search with a list. *)
Theorem serve_never_raises (E : Env) (r : Request) (s : State E) :
  match r, result (serve r s) with
  | ReqUpload _, Ok (RespJSON j) =>
      json_status_code j = 200%Z \/ json_status_code j = 500%Z
  | ReqGenerate _, Ok (RespStream x) => stream_status_code x = 200%Z
  | ReqSearch _, Ok (RespDocs _) => True
  | _, _ => False
  end.
Proof.
  destruct r as [file | p | data]; unfold serve, bind, ret, prepend.
  - destruct (upload_document_status file s) as (j & Hj & Hst).
    destruct (upload_document file s) as [res s1 evs]. cbn in Hj. subst res.
    exact Hst.
  - destruct (generate_answer_status p s) as (x & Hx & Hst).
    destruct (generate_answer p s) as [res s1 evs]. cbn in Hx. subst res.
    exact Hst.
  - destruct (document_search_returns data s) as (docs & Hd).
    destruct (document_search data s) as [res s1 evs]. cbn in Hd. subst res.
    exact I.
Qed.

(** X14: each endpoint keeps to its own operations.  [generate_answer]
    and [document_search] never make a directory, write a file or call
    [ingest_docs]; [generate_answer] never calls [document_search] and
    [document_search] never calls a chain; [upload_document] calls neither
    a chain nor [document_search]. *)
Theorem endpoints_keep_apart (E : Env) (s : State E) :
  (forall p,
      flat_map disk_write (events (generate_answer p s)) = [] /\
      flat_map ingest_call (events (generate_answer p s)) = [] /\
      flat_map search_call (events (generate_answer p s)) = []) /\
  (forall data,
      flat_map disk_write (events (document_search data s)) = [] /\
      flat_map ingest_call (events (document_search data s)) = [] /\
      chain_calls (events (document_search data s)) = []) /\
  (forall file,
      chain_calls (events (upload_document file s)) = [] /\
      flat_map search_call (events (upload_document file s)) = []).
Proof.
  split; [| split].
  - intros p. unfold_server. cbn.
    destruct (app_example s) as [cls |]; cbn; [| auto].
    case_world.
    + destruct (use_knowledge_base p); cbn; case_world; auto;
        destruct (isinstance _ _ || isinstance _ _); cbn; auto.
    + destruct (isinstance _ _ || isinstance _ _); cbn; auto.
  - intros data. unfold_server. cbn.
    destruct (app_example s) as [cls |]; cbn; [| auto].
    case_world; [| auto].
    destruct (document_search_attr cls a); cbn; auto.
    case_world; auto.
  - intros file. unfold upload_document, instrumentation_wrapper.
    destruct (no_filename file); [cbn; auto |].
    unfold upload_document_try.
    destruct (basename (filename_str file) =? "")%string; [cbn; auto |].
    unfold_server. cbn -[String.append path_join].
    case_world; [| auto].
    case_world; [| auto].
    destruct (app_example s) as [cls |]; cbn -[String.append path_join];
      [| auto].
    case_world; [| auto].
    case_world; auto.
Qed.

(** ** Startup, case by case *)

Lemma prepend_nil (E : Env) (A : Type) (o : Outcome E A) : prepend [] o = o.
Proof. destruct o. reflexivity. Qed.

(** Classes that do not pass the test are passed over without a trace. *)
Lemma scan_members_none (E : Env) (members : list (string * ExampleClass E))
    (s : State E) :
  Forall (fun nc => qualifies (fst nc) (snd nc) = false) members ->
  scan_members members s = mkOutcome (Ok false) s [].
Proof.
  induction 1 as [| [name cls] rest Hq _ IH]; [reflexivity |].
  cbn [scan_members]. unfold qualifies in Hq. cbn [fst snd] in Hq.
  unfold bind, try_except, ret, prepend.
  destruct (issubset required_methods (cls_dir cls)); cbn in Hq |- *.
  - apply negb_false_iff in Hq. rewrite Hq. cbn. rewrite IH. reflexivity.
  - rewrite IH. reflexivity.
Qed.

(** The first class that passes the test is constructed; it is bound when
    the constructor returns, and a [ValueError] with its name is raised when
    the constructor raises.  The classes after it are not looked at. *)
Lemma scan_members_first (E : Env) (pre post : list (string * ExampleClass E))
    (name : string) (cls : ExampleClass E) (s : State E) :
  Forall (fun nc => qualifies (fst nc) (snd nc) = false) pre ->
  qualifies name cls = true ->
  scan_members (pre ++ (name, cls) :: post) s =
  match cls_init cls (world s) with
  | (Ok _, w) =>
      mkOutcome (Ok true) (mkState (Some cls) (S (next_id s)) w)
                [EvNew (cls_name cls) (next_id s)]
  | (Raise _, w) =>
      mkOutcome
        (Raise (ValueError ("Class " ++ name ++
                            " is not implemented and could not be instantiated.")))
        (mkState (app_example s) (next_id s) w) []
  end.
Proof.
  intros Hpre Hq. induction Hpre as [| [n c] rest Hn _ IH].
  - cbn [app scan_members]. unfold qualifies in Hq.
    apply andb_true_iff in Hq as [Hsub Hname]. apply negb_true_iff in Hname.
    rewrite Hsub, Hname.
    unfold bind, try_except, construct, set_app_example, ret, raise, prepend,
      set_world.
    destruct (cls_init cls (world s)) as [[obj | e] w]; reflexivity.
  - cbn [app scan_members]. unfold qualifies in Hn. cbn [fst snd] in Hn.
    unfold bind at 1. unfold try_except, ret, prepend.
    destruct (issubset required_methods (cls_dir c)); cbn in Hn |- *.
    + apply negb_false_iff in Hn. rewrite Hn. cbn. rewrite IH.
      destruct (cls_init cls (world s)) as [[obj | e] w]; reflexivity.
    + rewrite IH.
      destruct (cls_init cls (world s)) as [[obj | e] w]; reflexivity.
Qed.

Lemma scan_files_skip (E : Env) (root : string)
    (skipped rest : list (SourceFile E)) (s : State E) :
  (forall g, In g skipped -> endswith (file_name g) ".py" = false) ->
  scan_files root (skipped ++ rest) s = scan_files root rest s.
Proof.
  induction skipped as [| g skipped IH]; intros Hskip; [reflexivity |].
  cbn [app scan_files]. rewrite (Hskip g (or_introl eq_refl)). cbn [negb].
  apply IH. intros g' Hg'. apply Hskip. now right.
Qed.

Lemma scan_walk_skip (E : Env)
    (before rest : list (string * list (SourceFile E))) (s : State E) :
  (forall r fs g, In (r, fs) before -> In g fs ->
                  endswith (file_name g) ".py" = false) ->
  scan_walk (before ++ rest) s = scan_walk rest s.
Proof.
  induction before as [| [r fs] before IH]; intros Hskip; [reflexivity |].
  cbn [app scan_walk]. unfold bind.
  replace (scan_files r fs s) with (scan_files r (fs ++ []) s)
    by now rewrite app_nil_r.
  rewrite scan_files_skip by (intros g Hg; apply (Hskip r fs g); [now left | exact Hg]).
  cbn. rewrite prepend_nil.
  apply IH. intros r' fs' g Hin Hg. apply (Hskip r' fs' g); [now right | exact Hg].
Qed.

(** Startup up to the first class that passes the test, when the files
    before its module are not Python files. *)
Lemma import_example_at_first_match (E : Env)
    (before after : list (string * list (SourceFile E)))
    (root : string) (skipped later : list (SourceFile E)) (f : SourceFile E)
    (pre post : list (string * ExampleClass E))
    (name : string) (cls : ExampleClass E) (s : State E) (w1 : World E) :
  (forall r fs g, In (r, fs) before -> In g fs ->
                  endswith (file_name g) ".py" = false) ->
  (forall g, In g skipped -> endswith (file_name g) ".py" = false) ->
  endswith (file_name f) ".py" = true ->
  exec_module f (world s) = (Ok (pre ++ (name, cls) :: post), w1) ->
  Forall (fun nc => qualifies (fst nc) (snd nc) = false) pre ->
  qualifies name cls = true ->
  import_example (before ++ (root, skipped ++ f :: later) :: after) s =
  match cls_init cls w1 with
  | (Ok _, w2) =>
      mkOutcome (Ok tt) (mkState (Some cls) (S (next_id s)) w2)
                [EvImport (path_join root (file_name f));
                 EvNew (cls_name cls) (next_id s)]
  | (Raise _, w2) =>
      mkOutcome
        (Raise (ValueError ("Class " ++ name ++
                            " is not implemented and could not be instantiated.")))
        (mkState (app_example s) (next_id s) w2)
        [EvImport (path_join root (file_name f))]
  end.
Proof.
  intros Hbefore Hskipped Hpy Hexec Hpre Hq.
  unfold import_example. unfold bind at 1.
  rewrite (scan_walk_skip _ _ s Hbefore).
  cbn [scan_walk]. unfold bind at 1.
  rewrite (scan_files_skip root _ _ s Hskipped).
  cbn [scan_files]. rewrite Hpy. cbn [negb].
  unfold bind at 1. unfold extern. rewrite Hexec.
  unfold bind at 1. rewrite (@scan_members_first E pre post name cls _ Hpre Hq).
  cbn [world set_world app_example next_id].
  destruct (cls_init cls w1) as [[obj | e] w2]; reflexivity.
Qed.

(** X15: startup binds the first class that passes the test, in the order
    of the walk and of the module's classes: with only files that are not
    Python files before its module and only classes that fail the test (a
    missing method, or the name "BaseExample") before it, and its
    constructor returning, [import_example] imports that one module,
    constructs one object and sets [app.example] to the class; the files,
    classes and directories after it are not touched. *)
Theorem import_example_first_match (E : Env)
    (before after : list (string * list (SourceFile E)))
    (root : string) (skipped later : list (SourceFile E)) (f : SourceFile E)
    (pre post : list (string * ExampleClass E))
    (name : string) (cls : ExampleClass E) (s : State E)
    (obj : Obj E) (w1 w2 : World E) :
  (forall r fs g, In (r, fs) before -> In g fs ->
                  endswith (file_name g) ".py" = false) ->
  (forall g, In g skipped -> endswith (file_name g) ".py" = false) ->
  endswith (file_name f) ".py" = true ->
  exec_module f (world s) = (Ok (pre ++ (name, cls) :: post), w1) ->
  Forall (fun nc => qualifies (fst nc) (snd nc) = false) pre ->
  qualifies name cls = true ->
  cls_init cls w1 = (Ok obj, w2) ->
  import_example (before ++ (root, skipped ++ f :: later) :: after) s =
    mkOutcome (Ok tt) (mkState (Some cls) (S (next_id s)) w2)
              [EvImport (path_join root (file_name f));
               EvNew (cls_name cls) (next_id s)].
Proof.
  intros Hbefore Hskipped Hpy Hexec Hpre Hq Hinit.
  rewrite (@import_example_at_first_match E before after root skipped later f
             pre post name cls s w1 Hbefore Hskipped Hpy Hexec Hpre Hq).
  now rewrite Hinit.
Qed.

Lemma import_example_first_match_witness :
  import_example (Stub.walk (Stub.example [] true)) Stub.fresh =
    mkOutcome (Ok tt)
              (@mkState Stub.env (Some (Stub.example [] true)) 1 [])
              [EvImport "RetrievalAugmentedGeneration/example/chains.py";
               EvNew "StubExample" 0].
Proof.
  refine (@import_example_first_match Stub.env [] [] EXAMPLE_DIR
            [@mkSourceFile Stub.env "README.md" (fun w => (Ok [], w))] []
            (@mkSourceFile Stub.env "chains.py"
               (fun w => (Ok [("BaseExample", Stub.example [] true);
                              ("StubExample", Stub.example [] true)], w)))
            [("BaseExample", Stub.example [] true)] []
            "StubExample" (Stub.example [] true) Stub.fresh tt [] []
            _ _ eq_refl eq_refl _ eq_refl eq_refl).
  - intros r fs g [].
  - intros g [Hg | []]. subst g. reflexivity.
  - repeat constructor.
Defined.



Lemma scan_files_none (E : Env) (root : string) (files : list (SourceFile E))
    (s : State E) :
  (forall f, In f files -> endswith (file_name f) ".py" = true ->
     forall w, exists members,
       fst (exec_module f w) = Ok members /\
       Forall (fun nc => qualifies (fst nc) (snd nc) = false) members) ->
  result (scan_files root files s) = Ok false /\
  events (scan_files root files s) =
    map EvImport
        (map (fun f => path_join root (file_name f))
             (filter (fun f => endswith (file_name f) ".py") files)) /\
  app_example (state (scan_files root files s)) = app_example s /\
  next_id (state (scan_files root files s)) = next_id s.
Proof.
  revert s. induction files as [| f rest IH]; intros s Hfiles.
  - cbn. auto.
  - assert (Hrest : forall g, In g rest -> endswith (file_name g) ".py" = true ->
       forall w, exists members,
         fst (exec_module g w) = Ok members /\
         Forall (fun nc => qualifies (fst nc) (snd nc) = false) members)
      by (intros g Hg; apply Hfiles; now right).
    cbn [scan_files filter].
    destruct (endswith (file_name f) ".py") eqn:Hpy; cbn [negb]; [| now apply IH].
    destruct (Hfiles f (or_introl eq_refl) Hpy (world s)) as (members & Hex & Hnone).
    unfold bind, extern.
    destruct (exec_module f (world s)) as [r w]. cbn in Hex. subst r.
    rewrite (scan_members_none _ Hnone). cbn [prepend].
    destruct (IH (set_world s w) Hrest) as (Hr & He & Ha & Hn).
    destruct (scan_files root rest (set_world s w)) as [res st evs].
    cbn in Hr, He, Ha, Hn |- *. subst res evs. auto.
Qed.

Lemma scan_walk_none (E : Env) (walk : list (string * list (SourceFile E)))
    (s : State E) :
  (forall root files f, In (root, files) walk -> In f files ->
     endswith (file_name f) ".py" = true ->
     forall w, exists members,
       fst (exec_module f w) = Ok members /\
       Forall (fun nc => qualifies (fst nc) (snd nc) = false) members) ->
  result (scan_walk walk s) = Ok false /\
  events (scan_walk walk s) = map EvImport (py_locations walk) /\
  app_example (state (scan_walk walk s)) = app_example s /\
  next_id (state (scan_walk walk s)) = next_id s.
Proof.
  revert s. induction walk as [| [root files] rest IH]; intros s Hwalk.
  - cbn. auto.
  - cbn [scan_walk]. unfold bind.
    destruct (@scan_files_none E root files s) as (Hr & He & Ha & Hn).
    { intros f Hf. apply (Hwalk root files f); [now left | exact Hf]. }
    destruct (scan_files root files s) as [res st evs].
    cbn in Hr, He, Ha, Hn |- *. subst res evs.
    destruct (IH st) as (Hr' & He' & Ha' & Hn').
    { intros r fs f Hin. apply (Hwalk r fs f). now right. }
    destruct (scan_walk rest st) as [res' st' evs'].
    cbn in Hr', He', Ha', Hn' |- *. subst res' evs'.
    unfold py_locations. cbn [flat_map fst snd]. rewrite map_app.
    rewrite <- Ha, <- Hn. auto.
Qed.

(** X17: when every Python file of the walk loads and none of its classes
    passes the test (also when there is no Python file, or no file at
    all), startup imports each Python file once, in the order of the walk,
    constructs nothing, leaves [app.example] as it was and raises the
    NotImplementedError "Could not find a valid example class in
    RetrievalAugmentedGeneration/example". *)
Theorem import_example_nothing_qualifies (E : Env)
    (walk : list (string * list (SourceFile E))) (s : State E) :
  (forall root files f, In (root, files) walk -> In f files ->
     endswith (file_name f) ".py" = true ->
     forall w, exists members,
       fst (exec_module f w) = Ok members /\
       Forall (fun nc => qualifies (fst nc) (snd nc) = false) members) ->
  result (import_example walk s) =
    Raise (NotImplementedError
             "Could not find a valid example class in RetrievalAugmentedGeneration/example") /\
  events (import_example walk s) = map EvImport (py_locations walk) /\
  app_example (state (import_example walk s)) = app_example s /\
  next_id (state (import_example walk s)) = next_id s.
Proof.
  intros Hwalk. unfold import_example, bind.
  destruct (@scan_walk_none E walk s Hwalk) as (Hr & He & Ha & Hn).
  destruct (scan_walk walk s) as [res st evs].
  cbn in Hr, He, Ha, Hn |- *. subst res evs. cbn.
  rewrite app_nil_r. auto.
Qed.

Lemma import_example_nothing_qualifies_witness :
  result (import_example
            [(EXAMPLE_DIR,
              [@mkSourceFile Stub.env "README.md" (fun w => (Ok [], w));
               @mkSourceFile Stub.env "base.py"
                 (fun w => (Ok [("BaseExample", Stub.example [] true)], w))])]
            Stub.fresh) =
    Raise (NotImplementedError
             "Could not find a valid example class in RetrievalAugmentedGeneration/example") /\
  events (import_example
            [(EXAMPLE_DIR,
              [@mkSourceFile Stub.env "README.md" (fun w => (Ok [], w));
               @mkSourceFile Stub.env "base.py"
                 (fun w => (Ok [("BaseExample", Stub.example [] true)], w))])]
            Stub.fresh) =
    [EvImport "RetrievalAugmentedGeneration/example/base.py"].
Proof.
  destruct (@import_example_nothing_qualifies Stub.env
              [(EXAMPLE_DIR,
                [@mkSourceFile Stub.env "README.md" (fun w => (Ok [], w));
                 @mkSourceFile Stub.env "base.py"
                   (fun w => (Ok [("BaseExample", Stub.example [] true)], w))])]
              Stub.fresh) as (Hr & He & _).
  - intros root files f [Hin | []] Hf Hpy w. injection Hin as <- <-.
    destruct Hf as [<- | [<- | []]]; [discriminate |].
    eexists. split; [reflexivity |]. repeat constructor.
  - split; [exact Hr | exact He].
Defined.

Lemma scan_members_outcome (E : Env) (members : list (string * ExampleClass E))
    (s : State E) :
  scan_outcome s (scan_members members s).
Proof.
  induction members as [| [name cls] rest IH].
  - cbn. auto.
  - cbn [scan_members].
    unfold bind, try_except, construct, set_app_example, ret, raise, prepend,
      set_world.
    destruct (issubset required_methods (cls_dir cls)) eqn:Hsub;
      [destruct (name =? "BaseExample")%string |]; cbn.
    + destruct (scan_members rest s) as [res st evs]. exact IH.
    + destruct (cls_init cls (world s)) as [[obj | e] w]; cbn.
      * exists cls. auto.
      * unfold scan_outcome. cbn. auto.
    + destruct (scan_members rest s) as [res st evs]. exact IH.
Qed.

Lemma scan_outcome_step (E : Env) (s s1 : State E) (evs : list Event)
    (o : Outcome E bool) :
  app_example s1 = app_example s ->
  next_id s1 = next_id s ->
  instances_made evs = [] ->
  scan_outcome s1 o ->
  scan_outcome s (prepend evs o).
Proof.
  intros Ha Hn Hev. destruct o as [[[|] | e] st evs']; unfold scan_outcome; cbn;
    unfold instances_made in *; rewrite flat_map_app, Hev; cbn.
  - intros (cls & H1 & H2 & H3 & H4). exists cls. rewrite <- Hn. auto.
  - intros (H1 & H2 & H3). rewrite <- Ha, <- Hn. auto.
  - intros (H1 & H2 & H3). rewrite <- Ha, <- Hn. auto.
Qed.

Lemma scan_files_outcome (E : Env) (root : string) (files : list (SourceFile E))
    (s : State E) :
  scan_outcome s (scan_files root files s).
Proof.
  revert s. induction files as [| f rest IH]; intros s.
  - unfold scan_outcome. cbn. auto.
  - cbn [scan_files].
    destruct (negb (endswith (file_name f) ".py")); [apply IH |].
    unfold bind at 1. unfold extern.
    destruct (exec_module f (world s)) as [[members | e] w].
    + apply scan_outcome_step with (s1 := set_world s w); try reflexivity.
      unfold bind.
      pose proof (scan_members_outcome members (set_world s w)) as Hm.
      destruct (scan_members members (set_world s w)) as [[[|] | e] st evs].
      * unfold scan_outcome in *. cbn in *. rewrite app_nil_r.
        destruct Hm as (cls & H1 & H2 & H3 & H4). exists cls. auto.
      * unfold scan_outcome in Hm. cbn in Hm. destruct Hm as (H1 & H2 & H3).
        apply scan_outcome_step with (s1 := st); auto.
      * exact Hm.
    + unfold scan_outcome. cbn. auto.
Qed.

Lemma scan_walk_outcome (E : Env) (walk : list (string * list (SourceFile E)))
    (s : State E) :
  scan_outcome s (scan_walk walk s).
Proof.
  revert s. induction walk as [| [root files] rest IH]; intros s.
  - unfold scan_outcome. cbn. auto.
  - cbn [scan_walk]. unfold bind.
    pose proof (scan_files_outcome root files s) as Hf.
    destruct (scan_files root files s) as [[[|] | e] st evs].
    + unfold scan_outcome in *. cbn in *. rewrite app_nil_r.
      destruct Hf as (cls & H1 & H2 & H3 & H4). exists cls. auto.
    + unfold scan_outcome in Hf. cbn in Hf. destruct Hf as (H1 & H2 & H3).
      apply scan_outcome_step with (s1 := st); auto.
    + exact Hf.
Qed.

(** X18: whatever the directory holds, startup ends in one of two ways.
    When it returns, [app.example] holds a class with the three methods in
    its [dir] and exactly one object, of that class, was constructed.  When
    it raises, [app.example] is what it was before and no object was
    constructed: a failed startup never leaves a handler half bound. *)
Theorem import_example_outcome (E : Env)
    (walk : list (string * list (SourceFile E))) (s : State E) :
  match result (import_example walk s) with
  | Ok _ =>
      exists cls,
        app_example (state (import_example walk s)) = Some cls /\
        issubset required_methods (cls_dir cls) = true /\
        instances_made (events (import_example walk s)) =
          [(cls_name cls, next_id s)] /\
        next_id (state (import_example walk s)) = S (next_id s)
  | Raise _ =>
      app_example (state (import_example walk s)) = app_example s /\
      instances_made (events (import_example walk s)) = [] /\
      next_id (state (import_example walk s)) = next_id s
  end.
Proof.
  unfold import_example, bind.
  pose proof (scan_walk_outcome walk s) as Hw.
  destruct (scan_walk walk s) as [[[|] | e] st evs];
    unfold scan_outcome in Hw; cbn in Hw |- *; rewrite ?app_nil_r; exact Hw.
Qed.
